(** * KG Inicis payment callback and approval flow (app.js)

    A shallow embedding of the Express application of the
    [kg_inicis_node] project: the signed payment request built by
    [app.get("/")], and the callback handler
    [app.post("/INIstdpay_pc_return.ejs")] with its approval call and its
    network cancellation ("망취소").

    The handler is written in a small monad that records what it does to
    the outside (console output, requests, rendered pages), what it leaves
    to the callbacks of its requests, and whether it throws.  A callback
    field is any value of the JSON data model, as body-parser delivers it;
    converting one to a string, or comparing it with [==], can throw. *)

From Stdlib Require Import ZArith List String Ascii Bool Lia.
From Stdlib Require Import DecimalString DecimalPos DecimalZ.
Import ListNotations.

Set Warnings "-register-all".

Local Open Scope Z_scope.
Local Open Scope string_scope.

(** ** SHA-256, as [crypto.createHash("sha256")] computes it (FIPS 180-4)

    Words are 32-bit unsigned integers held in [Z]; every addition is
    reduced modulo 2^32 and every rotation masks the bits it pushes out. *)

Module Sha256.

Local Open Scope list_scope.

Definition mask32 : Z := 0xffffffff.

Definition add32 (x y : Z) : Z := (x + y) mod 0x100000000.

Definition not32 (x : Z) : Z := Z.lxor x mask32.

Definition shr (n x : Z) : Z := Z.shiftr x n.

Definition rotr (n x : Z) : Z :=
  Z.lor (Z.shiftr x n) (Z.land (Z.shiftl x (32 - n)) mask32).

Definition Ch (x y z : Z) : Z := Z.lxor (Z.land x y) (Z.land (not32 x) z).

Definition Maj (x y z : Z) : Z :=
  Z.lxor (Z.lxor (Z.land x y) (Z.land x z)) (Z.land y z).

Definition bsig0 (x : Z) : Z := Z.lxor (Z.lxor (rotr 2 x) (rotr 13 x)) (rotr 22 x).
Definition bsig1 (x : Z) : Z := Z.lxor (Z.lxor (rotr 6 x) (rotr 11 x)) (rotr 25 x).
Definition ssig0 (x : Z) : Z := Z.lxor (Z.lxor (rotr 7 x) (rotr 18 x)) (shr 3 x).
Definition ssig1 (x : Z) : Z := Z.lxor (Z.lxor (rotr 17 x) (rotr 19 x)) (shr 10 x).

(** The constants of the standard are roots of the first primes: the
    first 32 bits of the fractional part of the cube root of each of the
    first 64 primes for the rounds, and of the square root of each of the
    first 8 for the initial hash value. *)
Definition primes : list Z :=
  [
    2; 3; 5; 7; 11; 13; 17; 19; 23; 29; 31; 37; 41; 43; 47; 53;
    59; 61; 67; 71; 73; 79; 83; 89; 97; 101; 103; 107; 109; 113; 127; 131;
    137; 139; 149; 151; 157; 163; 167; 173; 179; 181; 191; 193; 197; 199; 211; 223;
    227; 229; 233; 239; 241; 251; 257; 263; 269; 271; 277; 281; 283; 293; 307; 311 ].

(** The largest [r] with [r ^ k <= x], built from bit 47 downwards. *)
Definition iroot (k : Z) (x : Z) : Z :=
  fold_left
    (fun r bit => if Z.leb ((r + 2 ^ bit) ^ k) x then r + 2 ^ bit else r)
    (map Z.of_nat (rev (seq 0 48))) 0.

Definition frac_root (k : Z) (p : Z) : Z :=
  (iroot k (p * 2 ^ (32 * k))) mod 2 ^ 32.

Definition K : list Z := Eval vm_compute in map (frac_root 3) primes.

(** The eight working variables, and the running hash value. *)
Record state : Type := State
  { wa : Z; wb : Z; wc : Z; wd : Z; we : Z; wf : Z; wg : Z; wh : Z }.

Definition H0 : state :=
  Eval vm_compute in
    match map (frac_root 2) (firstn 8 primes) with
    | [a; b; c; d; e; f; g; h] => State a b c d e f g h
    | _ => State 0 0 0 0 0 0 0 0
    end.

(** Padding: a 1 bit, zero bits up to 56 modulo 64 bytes, then the bit
    length as a 64-bit big-endian integer. *)
Definition be_bytes (n : nat) (x : Z) : list Z :=
  map (fun i => Z.land (Z.shiftr x (8 * Z.of_nat i)) 0xff) (rev (seq 0 n)).

Definition pad (msg : list Z) : list Z :=
  let len := Z.of_nat (List.length msg) in
  msg ++ [0x80] ++ repeat 0 (Z.to_nat ((55 - len) mod 64)) ++ be_bytes 8 (8 * len).

Fixpoint be_words (bytes : list Z) : list Z :=
  match bytes with
  | b0 :: b1 :: b2 :: b3 :: rest =>
      (Z.lor (Z.shiftl b0 24) (Z.lor (Z.shiftl b1 16) (Z.lor (Z.shiftl b2 8) b3)))
        :: be_words rest
  | _ => []
  end.

Fixpoint blocks (fuel : nat) (words : list Z) : list (list Z) :=
  match fuel, words with
  | S fuel', _ :: _ => firstn 16 words :: blocks fuel' (skipn 16 words)
  | _, _ => []
  end.

(** Message schedule: [w] grows from 16 to 64 words. *)
Definition schedule_step (w : list Z) : list Z :=
  let t := List.length w in
  let at_ (back : nat) := nth (t - back) w 0 in
  w ++ [add32 (add32 (add32 (ssig1 (at_ 2%nat)) (at_ 7%nat)) (ssig0 (at_ 15%nat)))
              (at_ 16%nat)].

Definition schedule (block : list Z) : list Z :=
  Nat.iter 48 schedule_step block.

Definition round (s : state) (kw : Z * Z) : state :=
  let '(k, w) := kw in
  let t1 := add32 (add32 (add32 (add32 (wh s) (bsig1 (we s))) (Ch (we s) (wf s) (wg s))) k) w in
  let t2 := add32 (bsig0 (wa s)) (Maj (wa s) (wb s) (wc s)) in
  State (add32 t1 t2) (wa s) (wb s) (wc s) (add32 (wd s) t1) (we s) (wf s) (wg s).

Definition compress (h : state) (block : list Z) : state :=
  let s := fold_left round (combine K (schedule block)) h in
  State (add32 (wa h) (wa s)) (add32 (wb h) (wb s)) (add32 (wc h) (wc s))
        (add32 (wd h) (wd s)) (add32 (we h) (we s)) (add32 (wf h) (wf s))
        (add32 (wg h) (wg s)) (add32 (wh h) (wh s)).

Definition hash (msg : list Z) : state :=
  let words := be_words (pad msg) in
  fold_left compress (blocks (List.length words) words) H0.

(** [digest('hex')]: lowercase hexadecimal, most significant nibble first. *)
Definition hex_digits : list ascii :=
  list_ascii_of_string "0123456789abcdef".

Definition hex_digit (n : Z) : ascii :=
  nth (Z.to_nat n) hex_digits "0"%char.

Definition nibble (w : Z) (shift : Z) : ascii :=
  hex_digit (Z.land (Z.shiftr w shift) 15).

Definition hex32 (w : Z) : string :=
  String (nibble w 28) (String (nibble w 24) (String (nibble w 20)
  (String (nibble w 16) (String (nibble w 12) (String (nibble w 8)
  (String (nibble w 4) (String (nibble w 0) EmptyString))))))).

Definition hex_of_state (s : state) : string :=
  (hex32 (wa s) ++ hex32 (wb s) ++ hex32 (wc s) ++ hex32 (wd s) ++
   hex32 (we s) ++ hex32 (wf s) ++ hex32 (wg s) ++ hex32 (wh s))%string.

(** [update(str)] feeds the bytes of the string (its UTF-8 encoding: the
    strings of this development are byte strings). *)
Definition bytes_of_string (s : string) : list Z :=
  map (fun c => Z.of_N (N_of_ascii c)) (list_ascii_of_string s).

Definition hex (s : string) : string :=
  hex_of_state (hash (bytes_of_string s)).

End Sha256.

(** ** JavaScript values

    The callback reaches the handler through body-parser: as JSON
    ([bodyParser.json()]) or as a form ([bodyParser.urlencoded] with
    [extended : true]).  Either way every field of [req.body] is a value of
    the JSON data model, and a field that was not sent reads [undefined].
    The same values are what the approval response holds once [request]
    (called with [json: true]) has parsed it.  Numbers are the integers
    that print in plain decimal; an object lists its own properties, each
    name once. *)

Inductive Json : Type :=
| JNull
| JBool (b : bool)
| JNum (n : Z)
| JStr (s : string)
| JArr (items : list Json)
| JObj (fields : list (string * Json)).

(** A JavaScript value: [None] is [undefined]. *)
Definition JsVal : Type := option Json.

Definition undefined : JsVal := None.

Definition lit (s : string) : JsVal := Some (JStr s).

(** Own property of an object, [undefined] when there is none. *)
Fixpoint assoc {A : Type} (k : string) (l : list (string * A)) : option A :=
  match l with
  | [] => None
  | (k', v) :: rest => if String.eqb k k' then Some v else assoc k rest
  end.

Definition Body : Type := list (string * Json).

(** [req.body.k] *)
Definition field (body : Body) (k : string) : JsVal := assoc k body.

Fixpoint join (sep : string) (l : list string) : string :=
  match l with
  | [] => ""
  | [x] => x
  | x :: rest => x ++ sep ++ join sep rest
  end.

(** A number prints in decimal. *)
Definition number_string (n : Z) : string := NilZero.string_of_int (Z.to_int n).

(** Conversion to a string, as a template literal and [+] with a string do
    it; [None] is the TypeError "Cannot convert object to primitive value".
    An array joins its elements with a comma, [null] printing as the empty
    string there.  An object prints as [[object Object]] through the
    inherited [toString]; when it has an own property [toString] (here never
    a function) neither [toString] nor the inherited [valueOf] gives a
    primitive, and the conversion throws. *)
Fixpoint to_string (v : Json) : option string :=
  match v with
  | JNull => Some "null"
  | JBool true => Some "true"
  | JBool false => Some "false"
  | JNum n => Some (number_string n)
  | JStr s => Some s
  | JArr items =>
      (fix join_items (l : list Json) : option string :=
         let item (x : Json) : option string :=
           match x with
           | JNull => Some ""
           | _ => to_string x
           end in
         match l with
         | [] => Some ""
         | [x] => item x
         | x :: rest =>
             match item x, join_items rest with
             | Some a, Some b => Some (a ++ "," ++ b)
             | _, _ => None
             end
         end) items
  | JObj fields =>
      match assoc "toString" fields with
      | Some _ => None
      | None => Some "[object Object]"
      end
  end.

Definition js_string (v : JsVal) : option string :=
  match v with
  | None => Some "undefined"
  | Some v => to_string v
  end.

(** [x === s] for a string literal [s]. *)
Definition strict_eq (x : JsVal) (s : string) : bool :=
  match x with
  | Some (JStr t) => String.eqb t s
  | _ => false
  end.

(** [x == y] where [y] is what the properties module returned: a string or
    [undefined]; [None] is a TypeError.  [undefined] equals [undefined] and
    [null] only.  Against a string, a string is compared as it is; a number
    is compared with the number the string reads as ([toNumber], which is
    JavaScript's conversion and is taken as given), a boolean likewise as 1
    or 0; an array or an object is first converted to a string, which may
    throw. *)
Definition loose_eq (toNumber : string -> option Z) (x : JsVal) (y : option string)
  : option bool :=
  match y with
  | None =>
      match x with
      | None => Some true
      | Some JNull => Some true
      | Some _ => Some false
      end
  | Some u =>
      match x with
      | None => Some false
      | Some JNull => Some false
      | Some (JStr s) => Some (String.eqb s u)
      | Some (JNum n) =>
          Some (match toNumber u with Some m => Z.eqb n m | None => false end)
      | Some (JBool b) =>
          Some (match toNumber u with
                | Some m => Z.eqb (if b then 1 else 0) m
                | None => false
                end)
      | Some (JArr items) =>
          match to_string (JArr items) with
          | Some s => Some (String.eqb s u)
          | None => None
          end
      | Some (JObj fields) =>
          match to_string (JObj fields) with
          | Some s => Some (String.eqb s u)
          | None => None
          end
      end
  end.

Definition truthy (v : JsVal) : bool :=
  match v with
  | None => false
  | Some JNull => false
  | Some (JBool b) => b
  | Some (JNum n) => negb (Z.eqb n 0)
  | Some (JStr s) => negb (String.eqb s "")
  | Some (JArr _) => true
  | Some (JObj _) => true
  end.

(** [a || b] *)
Definition js_or (a b : JsVal) : JsVal := if truthy a then a else b.

(** [result.k] on a parsed response that is not [null]: the own property of
    an object; [undefined] on an array, a string, a number or a boolean
    (none of the eight names read below is a built-in property). *)
Definition member (result : Json) (k : string) : JsVal :=
  match result with
  | JObj fields => assoc k fields
  | _ => undefined
  end.

(** ** The Signer of the specification

    [digest] is written after the specification (section 4.1): SHA-256 over
    the [name=value] pairs joined with [&], in the order given.  The code
    has no such function, it concatenates in place; the theorems below
    compare the two. *)
Definition digest (fields : list (string * string)) : string :=
  Sha256.hex (join "&" (map (fun nv => fst nv ++ "=" ++ snd nv) fields)).

(** ** Environment *)

(** Modelled from the spec: the module [./properties] (properties.js) is
    not among the sources; only its two functions [getAuthUrl] and
    [getNetCancel] are called.  Each is a pure lookup from the data-center
    name to a URL which returns no result ([undefined], here [None]) for a
    name it does not know. *)
Record Properties : Type :=
  { getAuthUrl : JsVal -> option string;
    getNetCancel : JsVal -> option string }.

(** Modelled from the spec: the three data centers ([fc], [ks], [stg]) and
    the URL shapes that the project's check scripts expect of
    properties.js. *)
Definition inicis_properties : Properties :=
  {| getAuthUrl := fun idc =>
       match idc with
       | Some (JStr "fc") => Some "https://fcstdpay.inicis.com/api/payAuth"
       | Some (JStr "ks") => Some "https://ksstdpay.inicis.com/api/payAuth"
       | Some (JStr "stg") => Some "https://stgstdpay.inicis.com/api/payAuth"
       | _ => None
       end;
     getNetCancel := fun idc =>
       match idc with
       | Some (JStr "fc") => Some "https://fcstdpay.inicis.com/api/netCancel"
       | Some (JStr "ks") => Some "https://ksstdpay.inicis.com/api/netCancel"
       | Some (JStr "stg") => Some "https://stgstdpay.inicis.com/api/netCancel"
       | _ => None
       end |}.

(** What [request.post] hands to its callback: an error and no response,
    or a response whose body, under [json: true], is the parsed value when
    the text is JSON, the text itself when it is not, and [undefined] when
    the response is empty. *)
Inductive Reply : Type :=
| ReplyError (message : string)
| ReplyBody (statusCode : Z) (body : JsVal).

(** The text of a response: one that [JSON.parse] accepts, given by its
    value, or one that it rejects. *)
Inductive ResponseText : Type :=
| ValidJson (value : Json)
| NotJson (text : string).

Definition body_of_response (r : ResponseText) : JsVal :=
  match r with
  | ValidJson v => Some v
  | NotJson "" => undefined
  | NotJson text => Some (JStr text)
  end.

Definition reply_of_response (statusCode : Z) (r : ResponseText) : Reply :=
  ReplyBody statusCode (body_of_response r).

Record Env : Type :=
  { MERCHANT_ID : option string;        (* process.env.MERCHANT_ID *)
    SIGN_KEY : option string;           (* process.env.SIGN_KEY *)
    getTime : Z;                        (* new Date().getTime() *)
    getUrl : Properties;                (* require('./properties') *)
    toNumber : string -> option Z;      (* the number a string reads as *)
    refuses : string -> option string;  (* the error with which request
                                           refuses a uri before sending *)
    approval_reply : Reply;             (* answer to the approval POST *)
    netcancel_reply : Reply }.          (* answer to the network cancellation *)

(** [process.env.X || d] *)
Definition env_or (v : option string) (d : string) : string :=
  match v with
  | None => d
  | Some "" => d
  | Some s => s
  end.

(** ** Records of the flow *)

(** The view data of [INIstdpay_pc_req.html]: the signed payment request. *)
Module PaymentRequest.
Record t : Type :=
  { mid : string; oid : string; price : string; timestamp : Z; mKey : string;
    use_chkfake : string; signature : string; verification : string }.
End PaymentRequest.

(** [options]: the form of the approval POST and of the cancellation. *)
Module ApprovalRequest.
Record t : Type :=
  { mid : JsVal; authToken : JsVal; timestamp : Z;
    signature : string; verification : string; charset : string;
    format : string }.
End ApprovalRequest.

(** The view data of [INIstdpay_pc_return.ejs]. *)
Module ApprovalResult.
Record t : Type :=
  { resultCode : JsVal; resultMsg : JsVal; tid : JsVal; MOID : JsVal;
    TotPrice : JsVal; goodName : JsVal; applDate : JsVal; applTime : JsVal }.
End ApprovalResult.

(** ** Effects

    What the handler does to the outside: console output, the two
    [request.post] call sites, and [res.render]; [Uncaught] is the end of
    the process on an exception that nothing catches. *)

Inductive Site : Type := Approval | NetCancel.

Inductive Event : Type :=
| LogCallback (body : Body)
| LogApproving
| LogIdcName (text : string)
| LogAuthUrl (text : string)
| LogAuthUrl2 (authUrl2 : option string)
| LogOptions (options : ApprovalRequest.t)
| LogUrlMatched
| LogReply (reply : Reply)
| LogParsed (result : Json)
| LogApprovalError
| LogNetCancelUrl (netCancelUrl2 : option string)
| LogNetCancelResult (reply : Reply)
| LogUrlMismatch
| LogDeclined (resultCode : JsVal)
| LogHandlerError
| Post (site : Site) (uri : option string) (form : ApprovalRequest.t)
| Render (status : Z) (data : ApprovalResult.t)
| Uncaught.

(** A computation emits events while it runs ([emitted]), leaves work for
    the callbacks of its requests, which run once it has returned
    ([deferred]), and either returns a value or throws ([None]). *)
Record Js (A : Type) : Type :=
  MkJs { emitted : list Event; deferred : list Event; returned : option A }.

Arguments MkJs {A} _ _ _.
Arguments emitted {A} _.
Arguments deferred {A} _.
Arguments returned {A} _.

Definition ret {A : Type} (a : A) : Js A := MkJs [] [] (Some a).

Definition throw {A : Type} : Js A := MkJs [] [] None.

Definition bind {A B : Type} (m : Js A) (k : A -> Js B) : Js B :=
  match returned m with
  | None => MkJs (emitted m) (deferred m) None
  | Some a =>
      let n := k a in
      MkJs (emitted m ++ emitted n) (deferred m ++ deferred n) (returned n)
  end.

Notation "x <- m ;; n" := (bind m (fun x => n))
  (at level 61, m at next level, right associativity).
Notation "m ;; n" := (bind m (fun _ => n)) (at level 61, right associativity).

Definition emit (e : Event) : Js unit := MkJs [e] [] (Some tt).

(** [try { m } catch (e) { handler }] *)
Definition try_catch (m handler : Js unit) : Js unit :=
  match returned m with
  | Some _ => m
  | None => MkJs (emitted m ++ emitted handler) (deferred m ++ deferred handler)
                 (returned handler)
  end.

(** Everything a computation started from the event loop does, in order:
    its own events, then those of the callbacks it left behind; when it
    throws, the process ends there. *)
Definition settle {A : Type} (m : Js A) : list Event :=
  emitted m ++ match returned m with
               | Some _ => deferred m
               | None => [Uncaught]
               end.

(** A callback that the event loop runs later. *)
Definition defer (m : Js unit) : Js unit := MkJs [] (settle m) (Some tt).

(** A conversion or comparison that may throw. *)
Definition attempt {A : Type} (v : option A) : Js A :=
  match v with
  | Some a => ret a
  | None => throw
  end.

(** [request] refuses some uris while the request is being set up: a
    missing or empty one ("options.uri is a required argument") and those it
    cannot dial ("Invalid URI", "Invalid protocol"), the latter left to
    [refuses]. *)
Definition refusal (env : Env) (uri : option string) : option string :=
  match uri with
  | None => Some "options.uri is a required argument"
  | Some "" => Some "options.uri is a required argument"
  | Some u => refuses env u
  end.

Definition reply_at (env : Env) (site : Site) : Reply :=
  match site with
  | Approval => approval_reply env
  | NetCancel => netcancel_reply env
  end.

(** What the callback of a request receives. *)
Definition answer (env : Env) (site : Site) (uri : option string) : Reply :=
  match refusal env uri with
  | Some message => ReplyError message
  | None => reply_at env site
  end.

(** [request.post({method: 'POST', uri, form, json: true}, callback)].  For
    a uri that [request] refuses, the callback runs with the error at once,
    inside the call; otherwise the request goes out and the callback runs
    later on the reply. *)
Definition request_post (env : Env) (site : Site) (uri : option string)
    (form : ApprovalRequest.t) (callback : Reply -> Js unit) : Js unit :=
  emit (Post site uri form) ;;
  match refusal env uri with
  | Some message => callback (ReplyError message)
  | None => defer (callback (reply_at env site))
  end.

Definition render (status : Z) (data : ApprovalResult.t) : Js unit :=
  emit (Render status data).

(** ** app.get("/") *)

Definition default_sign_key : string := "SU5JTElURV9UUklQTEVERVNfS0VZU1RS".

Definition merchant_key (signKey : string) : string := Sha256.hex signKey.

(** The argument of [update] for [signature], and its digest. *)
Definition signature_text (oid price : string) (timestamp : Z) : string :=
  "oid=" ++ oid ++ "&price=" ++ price ++ "&timestamp=" ++ number_string timestamp.

Definition request_signature (oid price : string) (timestamp : Z) : string :=
  Sha256.hex (signature_text oid price timestamp).

Definition request_verification (oid price signKey : string) (timestamp : Z) : string :=
  Sha256.hex ("oid=" ++ oid ++ "&price=" ++ price ++ "&signKey=" ++ signKey
              ++ "&timestamp=" ++ number_string timestamp).

Definition index (env : Env) : PaymentRequest.t :=
  let mid := env_or (MERCHANT_ID env) "INIpayTest" in
  let signKey := env_or (SIGN_KEY env) default_sign_key in
  let mKey := merchant_key signKey in
  let oid := "INIpayTest_01234" in
  let price := "1000" in
  let timestamp := getTime env in
  let use_chkfake := "Y" in
  let signature := request_signature oid price timestamp in
  let verification := request_verification oid price signKey timestamp in
  {| PaymentRequest.mid := mid;
     PaymentRequest.oid := oid;
     PaymentRequest.price := price;
     PaymentRequest.timestamp := timestamp;
     PaymentRequest.mKey := mKey;
     PaymentRequest.use_chkfake := use_chkfake;
     PaymentRequest.signature := signature;
     PaymentRequest.verification := verification |}.

(** ** app.post("/INIstdpay_pc_return.ejs") *)

(** The digests of lines 87 and 90, over the text the authToken converts
    to. *)
Definition auth_signature (token : string) (timestamp : Z) : string :=
  Sha256.hex ("authToken=" ++ token ++ "&timestamp=" ++ number_string timestamp).

Definition auth_verification (token signKey : string) (timestamp : Z) : string :=
  Sha256.hex ("authToken=" ++ token ++ "&signKey=" ++ signKey
              ++ "&timestamp=" ++ number_string timestamp).

(** [JSON.parse((err) ? err : JSON.stringify(body))].  An error object
    reads [Error: ...], which is no JSON text, so [JSON.parse] throws; for
    an [undefined] body [JSON.stringify] returns [undefined] and
    [JSON.parse] throws as well; any other body is a JSON value or a
    string, and printing then parsing it gives it back. *)
Definition parse_reply (reply : Reply) : Js Json :=
  match reply with
  | ReplyError _ => throw
  | ReplyBody _ None => throw
  | ReplyBody _ (Some value) => ret value
  end.

(** The callback of the approval POST. *)
Definition approval_callback (env : Env) (body : Body)
    (netCancelUrl idc_name : JsVal) (options : ApprovalRequest.t)
    (reply : Reply) : Js unit :=
  emit (LogReply reply) ;;
  try_catch
    (result <- parse_reply reply ;;
     emit (LogParsed result) ;;
     match result with
     | JNull => throw                  (* reading a property of null *)
     | _ =>
         render 200
           {| ApprovalResult.resultCode := js_or (member result "resultCode") (lit "9999");
              ApprovalResult.resultMsg := js_or (member result "resultMsg") (lit "응답 파싱 오류");
              ApprovalResult.tid := js_or (member result "tid") (lit "N/A");
              ApprovalResult.MOID := js_or (member result "MOID") (field body "oid");
              ApprovalResult.TotPrice := js_or (member result "TotPrice") (field body "price");
              ApprovalResult.goodName := js_or (member result "goodName") (lit "N/A");
              ApprovalResult.applDate := js_or (member result "applDate") (lit "N/A");
              ApprovalResult.applTime := js_or (member result "applTime") (lit "N/A") |}
     end)
    (emit LogApprovalError ;;
     let netCancelUrl2 := getNetCancel (getUrl env) idc_name in
     emit (LogNetCancelUrl netCancelUrl2) ;;
     matched <- attempt (loose_eq (toNumber env) netCancelUrl netCancelUrl2) ;;
     (if matched : bool
      then request_post env NetCancel netCancelUrl2 options
             (fun reply' => emit (LogNetCancelResult reply'))
      else ret tt) ;;
     render 200
       {| ApprovalResult.resultCode := lit "9999";
          ApprovalResult.resultMsg := lit "승인 처리 중 오류 발생";
          ApprovalResult.tid := lit "N/A";
          ApprovalResult.MOID := js_or (field body "oid") (lit "N/A");
          ApprovalResult.TotPrice := js_or (field body "price") (lit "N/A");
          ApprovalResult.goodName := lit "N/A";
          ApprovalResult.applDate := lit "N/A";
          ApprovalResult.applTime := lit "N/A" |}).

Definition pc_return (env : Env) (body : Body) : Js unit :=
  emit (LogCallback body) ;;
  try_catch
    (if strict_eq (field body "resultCode") "0000" then
       emit LogApproving ;;
       let mid := field body "mid" in
       let signKey := env_or (SIGN_KEY env) default_sign_key in
       let authToken := field body "authToken" in
       let netCancelUrl := field body "netCancelUrl" in
       let merchantData := field body "merchantData" in
       let timestamp := getTime env in
       let charset := "UTF-8" in
       let format := "JSON" in
       let idc_name := field body "idc_name" in
       let authUrl := field body "authUrl" in
       let authUrl2 := getAuthUrl (getUrl env) idc_name in
       idc_text <- attempt (js_string idc_name) ;;
       emit (LogIdcName idc_text) ;;
       authUrl_text <- attempt (js_string authUrl) ;;
       emit (LogAuthUrl authUrl_text) ;;
       emit (LogAuthUrl2 authUrl2) ;;
       token <- attempt (js_string authToken) ;;
       let signature := auth_signature token timestamp in
       let verification := auth_verification token signKey timestamp in
       let options :=
         {| ApprovalRequest.mid := mid;
            ApprovalRequest.authToken := authToken;
            ApprovalRequest.timestamp := timestamp;
            ApprovalRequest.signature := signature;
            ApprovalRequest.verification := verification;
            ApprovalRequest.charset := charset;
            ApprovalRequest.format := format |} in
       emit (LogOptions options) ;;
       matched <- attempt (loose_eq (toNumber env) authUrl authUrl2) ;;
       if matched : bool then
         emit LogUrlMatched ;;
         request_post env Approval authUrl2 options
           (approval_callback env body netCancelUrl idc_name options)
       else
         emit LogUrlMismatch ;;
         render 200
           {| ApprovalResult.resultCode := lit "9999";
              ApprovalResult.resultMsg := lit "URL 매칭 실패";
              ApprovalResult.tid := lit "N/A";
              ApprovalResult.MOID := js_or (field body "oid") (lit "N/A");
              ApprovalResult.TotPrice := js_or (field body "price") (lit "N/A");
              ApprovalResult.goodName := lit "N/A";
              ApprovalResult.applDate := lit "N/A";
              ApprovalResult.applTime := lit "N/A" |}
     else
       emit (LogDeclined (field body "resultCode")) ;;
       render 200
         {| ApprovalResult.resultCode := field body "resultCode";
            ApprovalResult.resultMsg := field body "resultMsg";
            ApprovalResult.tid := field body "tid";
            ApprovalResult.MOID := field body "MOID";
            ApprovalResult.TotPrice := field body "TotPrice";
            ApprovalResult.goodName := field body "goodName";
            ApprovalResult.applDate := field body "applDate";
            ApprovalResult.applTime := field body "applTime" |})
    (emit LogHandlerError ;;
     render 500
       {| ApprovalResult.resultCode := lit "9999";
          ApprovalResult.resultMsg := lit "서버 처리 오류";
          ApprovalResult.tid := lit "N/A";
          ApprovalResult.MOID := lit "N/A";
          ApprovalResult.TotPrice := lit "N/A";
          ApprovalResult.goodName := lit "N/A";
          ApprovalResult.applDate := lit "N/A";
          ApprovalResult.applTime := lit "N/A" |}).

(** Everything one callback causes, in order. *)
Definition handle (env : Env) (body : Body) : list Event :=
  settle (pc_return env body).

(** ** Observations on a trace *)

Definition posts_at (site : Site) (events : list Event)
  : list (option string * ApprovalRequest.t) :=
  flat_map (fun e =>
    match e, site with
    | Post Approval uri form, Approval => [(uri, form)]
    | Post NetCancel uri form, NetCancel => [(uri, form)]
    | _, _ => []
    end) events.

Definition approval_posts := posts_at Approval.
Definition netcancel_posts := posts_at NetCancel.

Definition network_calls (events : list Event) : list Event :=
  filter (fun e => match e with Post _ _ _ => true | _ => false end) events.

Definition rendered (events : list Event) : list (Z * ApprovalResult.t) :=
  flat_map (fun e =>
    match e with Render status data => [(status, data)] | _ => [] end) events.

Definition built_requests (events : list Event) : list ApprovalRequest.t :=
  flat_map (fun e =>
    match e with
    | LogOptions options => [options]
    | Post _ _ form => [form]
    | _ => []
    end) events.

(** Whether the run ended on an exception that nothing caught. *)
Definition crashed (events : list Event) : bool :=
  existsb (fun e => match e with Uncaught => true | _ => false end) events.

(** ** Notions the statements below use *)

(** The value of [options] in [pc_return], for the text [token] that the
    authToken converts to. *)
Definition options_of (env : Env) (body : Body) (token : string) : ApprovalRequest.t :=
  {| ApprovalRequest.mid := field body "mid";
     ApprovalRequest.authToken := field body "authToken";
     ApprovalRequest.timestamp := getTime env;
     ApprovalRequest.signature := auth_signature token (getTime env);
     ApprovalRequest.verification :=
       auth_verification token (env_or (SIGN_KEY env) default_sign_key) (getTime env);
     ApprovalRequest.charset := "UTF-8";
     ApprovalRequest.format := "JSON" |}.

(** [options], when the authToken converts to a string. *)
Definition approval_options (env : Env) (body : Body) : option ApprovalRequest.t :=
  option_map (options_of env body) (js_string (field body "authToken")).

(** Whether a value converts to a string. *)
Definition converts (v : JsVal) : bool :=
  match js_string v with Some _ => true | None => false end.

(** The three conversions of lines 82, 83 and 87 succeed. *)
Definition prepared (body : Body) : bool :=
  converts (field body "idc_name") && converts (field body "authUrl")
  && converts (field body "authToken").

(** What the URL check of [pc_return] compares, and its outcome. *)
Definition authUrl2_of (env : Env) (body : Body) : option string :=
  getAuthUrl (getUrl env) (field body "idc_name").

Definition netCancelUrl2_of (env : Env) (body : Body) : option string :=
  getNetCancel (getUrl env) (field body "idc_name").

Definition url_check (env : Env) (body : Body) : option bool :=
  loose_eq (toNumber env) (field body "authUrl") (authUrl2_of env body).

Definition netcancel_check (env : Env) (body : Body) : option bool :=
  loose_eq (toNumber env) (field body "netCancelUrl") (netCancelUrl2_of env body).

(** What the callback of the approval POST receives. *)
Definition approval_answer (env : Env) (body : Body) : Reply :=
  answer env Approval (authUrl2_of env body).

(** The replies on which the [try] block of the approval callback throws:
    an error, an empty body, or the JSON value [null]. *)
Definition reply_throws (reply : Reply) : bool :=
  match reply with
  | ReplyError _ => true
  | ReplyBody _ None => true
  | ReplyBody _ (Some JNull) => true
  | ReplyBody _ (Some _) => false
  end.

(** A reply that the specification does not trust (section 4.4, step 3):
    it could not be parsed, or its [resultCode] is absent or is no
    string. *)
Definition untrusted (reply : Reply) : bool :=
  match reply with
  | ReplyError _ => true
  | ReplyBody _ None => true
  | ReplyBody _ (Some JNull) => true
  | ReplyBody _ (Some result) =>
      match member result "resultCode" with
      | Some (JStr _) => false
      | _ => true
      end
  end.

(** The pages of the handler. *)
Definition failure_page (resultMsg : string) (MOID TotPrice : JsVal) : ApprovalResult.t :=
  {| ApprovalResult.resultCode := lit "9999";
     ApprovalResult.resultMsg := lit resultMsg;
     ApprovalResult.tid := lit "N/A";
     ApprovalResult.MOID := MOID;
     ApprovalResult.TotPrice := TotPrice;
     ApprovalResult.goodName := lit "N/A";
     ApprovalResult.applDate := lit "N/A";
     ApprovalResult.applTime := lit "N/A" |}.

(** Line 149: the approval could not be read. *)
Definition approval_error_page (body : Body) : ApprovalResult.t :=
  failure_page "승인 처리 중 오류 발생"
    (js_or (field body "oid") (lit "N/A")) (js_or (field body "price") (lit "N/A")).

(** Line 163: the URL check failed. *)
Definition mismatch_page (body : Body) : ApprovalResult.t :=
  failure_page "URL 매칭 실패"
    (js_or (field body "oid") (lit "N/A")) (js_or (field body "price") (lit "N/A")).

(** Line 190: the handler threw. *)
Definition server_error_page : ApprovalResult.t :=
  failure_page "서버 처리 오류" (lit "N/A") (lit "N/A").

(** Line 124: the approval's result. *)
Definition result_page (body : Body) (result : Json) : ApprovalResult.t :=
  {| ApprovalResult.resultCode := js_or (member result "resultCode") (lit "9999");
     ApprovalResult.resultMsg := js_or (member result "resultMsg") (lit "응답 파싱 오류");
     ApprovalResult.tid := js_or (member result "tid") (lit "N/A");
     ApprovalResult.MOID := js_or (member result "MOID") (field body "oid");
     ApprovalResult.TotPrice := js_or (member result "TotPrice") (field body "price");
     ApprovalResult.goodName := js_or (member result "goodName") (lit "N/A");
     ApprovalResult.applDate := js_or (member result "applDate") (lit "N/A");
     ApprovalResult.applTime := js_or (member result "applTime") (lit "N/A") |}.

(** Line 177: the callback's own fields. *)
Definition declined_page (body : Body) : ApprovalResult.t :=
  {| ApprovalResult.resultCode := field body "resultCode";
     ApprovalResult.resultMsg := field body "resultMsg";
     ApprovalResult.tid := field body "tid";
     ApprovalResult.MOID := field body "MOID";
     ApprovalResult.TotPrice := field body "TotPrice";
     ApprovalResult.goodName := field body "goodName";
     ApprovalResult.applDate := field body "applDate";
     ApprovalResult.applTime := field body "applTime" |}.

(** The console output of the approval callback before it renders or
    throws. *)
Definition reply_logs (reply : Reply) : list Event :=
  LogReply reply ::
  match reply with
  | ReplyBody _ (Some result) => [ LogParsed result ]
  | _ => []
  end.

(** Console output that is neither a request, a page, a built request nor
    the end of the process. *)
Definition is_log (e : Event) : Prop :=
  match e with
  | Post _ _ _ | Render _ _ | LogOptions _ | Uncaught => False
  | _ => True
  end.

(** The handler reaches the approval POST: the callback has resultCode
    "0000", its idc_name, authUrl and authToken convert to strings, and the
    URL check passes. *)
Definition approves (env : Env) (body : Body) : bool :=
  strict_eq (field body "resultCode") "0000" && prepared body
  && match url_check env body with Some true => true | _ => false end.

(** The handler reaches the network cancellation: reading the approval's
    reply threw and the check of the cancellation URL passes. *)
Definition cancels (env : Env) (body : Body) : bool :=
  approves env body && reply_throws (approval_answer env body)
  && match netcancel_check env body with Some true => true | _ => false end.

(** The pages a run renders, by the path it takes. *)
Definition pages (env : Env) (body : Body) : list (Z * ApprovalResult.t) :=
  if strict_eq (field body "resultCode") "0000" then
    if prepared body then
      match url_check env body with
      | Some true =>
          match approval_answer env body with
          | ReplyBody _ (Some JNull) | ReplyBody _ None | ReplyError _ =>
              match netcancel_check env body, refusal env (authUrl2_of env body) with
              | Some _, _ => [ (200, approval_error_page body) ]
              | None, Some _ => [ (500, server_error_page) ]
              | None, None => []
              end
          | ReplyBody _ (Some result) => [ (200, result_page body result) ]
          end
      | _ => [ (200, mismatch_page body) ]
      end
    else [ (500, server_error_page) ]
  else [ (200, declined_page body) ].

Definition option_list {A : Type} (o : option A) : list A :=
  match o with Some a => [a] | None => [] end.

Definition lower_hex (c : ascii) : Prop := In c Sha256.hex_digits.

(** ** Sample data *)

Definition is_digit (c : ascii) : bool :=
  let n := Z.of_nat (nat_of_ascii c) in Z.leb 48 n && Z.leb n 57.

(** The number a string of decimal digits reads as, 0 for the empty
    string; the samples compare numbers with no other numerals. *)
Definition decimal_number (s : string) : option Z :=
  if forallb is_digit (list_ascii_of_string s)
  then Some (fold_left (fun acc c => 10 * acc + (Z.of_nat (nat_of_ascii c) - 48))
               (list_ascii_of_string s) 0)
  else None.

Definition quote : string := String (ascii_of_nat 34) EmptyString.

(** [request] dials http and https only. *)
Definition dials_http (uri : string) : option string :=
  if String.prefix "https://" uri || String.prefix "http://" uri
  then None
  else Some ("Invalid URI " ++ quote ++ uri ++ quote).

Definition sample_env (reply : Reply) : Env :=
  {| MERCHANT_ID := None;
     SIGN_KEY := None;
     getTime := 1700000000000;
     getUrl := inicis_properties;
     toNumber := decimal_number;
     refuses := dials_http;
     approval_reply := reply;
     netcancel_reply := ReplyBody 200 (Some (JObj [("resultCode", JStr "0000")])) |}.

Definition fc_authUrl : string := "https://fcstdpay.inicis.com/api/payAuth".
Definition fc_netCancelUrl : string := "https://fcstdpay.inicis.com/api/netCancel".

(** A callback as the gateway sends it after a successful checkout, with
    given values in [authToken], [authUrl] and [netCancelUrl]. *)
Definition callback_with (authToken authUrl netCancelUrl : Json) : Body :=
  [ ("resultCode", JStr "0000"); ("resultMsg", JStr "OK"); ("mid", JStr "INIpayTest");
    ("authToken", authToken); ("idc_name", JStr "fc");
    ("authUrl", authUrl); ("netCancelUrl", netCancelUrl);
    ("oid", JStr "INIpayTest_01234"); ("price", JStr "1000") ].

Definition sample_callback : Body :=
  callback_with (JStr "tok") (JStr fc_authUrl) (JStr fc_netCancelUrl).

(** The same callback with another value in [authUrl]. *)
Definition callback_with_authUrl (authUrl : Json) : Body :=
  callback_with (JStr "tok") authUrl (JStr fc_netCancelUrl).

(** What [authToken[toString]=x] of a form, or the same in JSON, gives: an
    object with an own property [toString]. *)
Definition unprintable : Json := JObj [("toString", JStr "x")].

(** A callback that names a data center the properties module does not
    know and carries neither [authUrl] nor [netCancelUrl]. *)
Definition unknown_idc_callback : Body :=
  [ ("resultCode", JStr "0000"); ("mid", JStr "INIpayTest");
    ("authToken", JStr "tok"); ("idc_name", JStr "xx");
    ("oid", JStr "INIpayTest_01234"); ("price", JStr "1000") ].

(** A checkout the buyer cancelled in the widget. *)
Definition declined_callback : Body :=
  [ ("resultCode", JStr "V801"); ("resultMsg", JStr "cancelled by the buyer");
    ("MOID", JStr "INIpayTest_01234"); ("TotPrice", JStr "1000") ].

Definition success_response : Json :=
  JObj [ ("resultCode", JStr "0000"); ("resultMsg", JStr "OK"); ("tid", JStr "T1");
         ("MOID", JStr "INIpayTest_01234"); ("TotPrice", JStr "1000") ].

(** All strings of length [n] over an alphabet. *)
Fixpoint words (alphabet : list ascii) (n : nat) : list string :=
  match n with
  | O => [""]
  | S n' => flat_map (fun c => map (String c) (words alphabet n')) alphabet
  end.

(** ** Variations of an environment *)

Definition with_approval_reply (env : Env) (reply : Reply) : Env :=
  {| MERCHANT_ID := MERCHANT_ID env;
     SIGN_KEY := SIGN_KEY env;
     getTime := getTime env;
     getUrl := getUrl env;
     toNumber := toNumber env;
     refuses := refuses env;
     approval_reply := reply;
     netcancel_reply := netcancel_reply env |}.

Definition with_netcancel_reply (env : Env) (reply : Reply) : Env :=
  {| MERCHANT_ID := MERCHANT_ID env;
     SIGN_KEY := SIGN_KEY env;
     getTime := getTime env;
     getUrl := getUrl env;
     toNumber := toNumber env;
     refuses := refuses env;
     approval_reply := approval_reply env;
     netcancel_reply := reply |}.

(** Whether a character occurs in a string. *)
Fixpoint has_char (c : ascii) (s : string) : bool :=
  match s with
  | EmptyString => false
  | String d rest => Ascii.eqb c d || has_char c rest
  end.

(** ** The crypto test of the verification script

    The node program that the script pipes to [node]: it prints the three
    digests of its test data, each after a label, then a success line. *)
Module CryptoTest.

Record testData : Type :=
  { signKey : string; oid : string; price : string; timestamp : string }.

Definition sample : testData :=
  {| signKey := "SU5JTElURV9UUklQTEVERVNfS0VZU1RS";
     oid := "TEST_ORDER_001";
     price := "1000";
     timestamp := "1638360000000" |}.

Definition run (t : testData) : list string :=
  let mKey := Sha256.hex (signKey t) in
  let signature :=
    Sha256.hex ("oid=" ++ oid t ++ "&price=" ++ price t
                ++ "&timestamp=" ++ timestamp t) in
  let verification :=
    Sha256.hex ("oid=" ++ oid t ++ "&price=" ++ price t ++ "&signKey=" ++ signKey t
                ++ "&timestamp=" ++ timestamp t) in
  [ "mKey_RESULT:" ++ mKey;
    "signature_RESULT:" ++ signature;
    "verification_RESULT:" ++ verification;
    "CRYPTO_TEST_SUCCESS" ].

End CryptoTest.

Arguments Sha256.hex : simpl never.
Arguments auth_signature : simpl never.
Arguments auth_verification : simpl never.
Arguments number_string : simpl never.

Arguments js_string : simpl never.
Arguments loose_eq : simpl never.
Arguments js_or : simpl never.
Arguments member : simpl never.

(** * Theorems *)

(** ** The SHA-256 model agrees with the standard test vectors *)

Example sha256_empty :
  Sha256.hex "" = "e3b0c44298fc1c149afbf4c8996fb92427ae41e4649b934ca495991b7852b855".
Proof. vm_compute. reflexivity. Qed.

Example sha256_abc :
  Sha256.hex "abc" = "ba7816bf8f01cfea414140de5dae2223b00361a396177a9cb410ff61f20015ad".
Proof. vm_compute. reflexivity. Qed.

Example sha256_two_blocks :
  Sha256.hex "abcdbcdecdefdefgefghfghighijhijkijkljklmklmnlmnomnopnopq"
  = "248d6a61d20638b8e5c026930c3e6039a33ce45964ff2167f6ecedd419db06c1".
Proof. vm_compute. reflexivity. Qed.

Example sha256_request_signature :
  request_signature "INIpayTest_01234" "1000" 1700000000000
  = "e08c138777c2c267d6c2a1e48ee6f70834d61759fdfde1d26b183c6c5dfac99e".
Proof. vm_compute. reflexivity. Qed.

(** ** Conversions and comparisons *)

Lemma loose_eq_defined (toNum : string -> option Z) (x : JsVal) (y : option string) :
  converts x = true -> loose_eq toNum x y <> None.
Proof.
  unfold converts, js_string, loose_eq.
  destruct y as [u | ]; destruct x as [[ | b | n | s | items | fields] | ];
    try discriminate;
    destruct (to_string _); discriminate.
Qed.

Lemma loose_eq_same_string (toNum : string -> option Z) (u : string) :
  loose_eq toNum (Some (JStr u)) (Some u) = Some true.
Proof. unfold loose_eq. now rewrite String.eqb_refl. Qed.

Lemma converts_string (v : JsVal) (s : string) : js_string v = Some s -> converts v = true.
Proof. unfold converts. now intros ->. Qed.

Lemma converts_inv (v : JsVal) : converts v = true -> exists s, js_string v = Some s.
Proof. unfold converts. destruct (js_string v) as [s | ]; [now exists s | discriminate]. Qed.

Lemma prepared_inv (body : Body) :
  prepared body = true ->
  exists idc_text authUrl_text token,
    js_string (field body "idc_name") = Some idc_text /\
    js_string (field body "authUrl") = Some authUrl_text /\
    js_string (field body "authToken") = Some token.
Proof.
  unfold prepared. intros H.
  apply andb_prop in H. destruct H as [H Htok].
  apply andb_prop in H. destruct H as [Hidc Hurl].
  destruct (converts_inv _ Hidc) as (i & Hi).
  destruct (converts_inv _ Hurl) as (a & Ha).
  destruct (converts_inv _ Htok) as (t & Ht).
  now exists i, a, t.
Qed.

Lemma url_check_defined (env : Env) (body : Body) :
  prepared body = true -> url_check env body <> None.
Proof.
  unfold prepared. intros H.
  apply andb_prop in H. destruct H as [H _].
  apply andb_prop in H. destruct H as [_ Hurl].
  now apply loose_eq_defined.
Qed.

(** ** Observations distribute over the parts of a trace *)

Lemma network_calls_app (l1 l2 : list Event) :
  network_calls (l1 ++ l2) = (network_calls l1 ++ network_calls l2)%list.
Proof. apply filter_app. Qed.

Lemma rendered_app (l1 l2 : list Event) :
  rendered (l1 ++ l2) = (rendered l1 ++ rendered l2)%list.
Proof. apply flat_map_app. Qed.

Lemma posts_at_app (site : Site) (l1 l2 : list Event) :
  posts_at site (l1 ++ l2) = (posts_at site l1 ++ posts_at site l2)%list.
Proof. apply flat_map_app. Qed.

Lemma posts_at_network_calls (site : Site) (events : list Event)
    (uri : option string) (form : ApprovalRequest.t) :
  In (uri, form) (posts_at site events) ->
  In (Post site uri form) (network_calls events).
Proof.
  induction events as [ | e events IH]; simpl; [tauto | ].
  intros Hin. apply in_app_or in Hin. destruct Hin as [Hin | Hin].
  - destruct e; destruct site; simpl in Hin; try tauto;
      destruct site0; simpl in Hin; try tauto;
      destruct Hin as [[= -> ->] | []]; simpl; now left.
  - destruct e; simpl; auto.
Qed.

Lemma logs_are_silent (events : list Event) :
  Forall is_log events ->
  network_calls events = [] /\ rendered events = [] /\ built_requests events = [] /\
  crashed events = false /\ forall site, posts_at site events = [].
Proof.
  induction 1 as [ | e events He _ (Hn & Hr & Hb & Hc & Hp)].
  - repeat split.
  - destruct e; try (now elim He); cbn;
      rewrite ?Hn, ?Hr, ?Hb, ?Hc; repeat split; intros []; apply Hp.
Qed.

(** ** The shape of a run *)

Lemma handle_declined (env : Env) (body : Body) :
  strict_eq (field body "resultCode") "0000" = false ->
  handle env body =
  [ LogCallback body;
    LogDeclined (field body "resultCode");
    Render 200 (declined_page body) ].
Proof.
  intros Hcode. unfold handle, pc_return. rewrite Hcode. reflexivity.
Qed.

(** A conversion of line 82, 83 or 87 throws: the outer [catch] answers. *)
Lemma handle_threw (env : Env) (body : Body) :
  strict_eq (field body "resultCode") "0000" = true ->
  prepared body = false ->
  exists logged,
    handle env body =
    ([ LogCallback body; LogApproving ] ++ logged
     ++ [ LogHandlerError; Render 500 server_error_page ])%list /\
    Forall is_log logged.
Proof.
  intros Hcode Hprep. unfold handle, pc_return. rewrite Hcode.
  unfold prepared, converts in Hprep.
  destruct (js_string (field body "idc_name")) as [i | ] eqn:Hidc.
  - destruct (js_string (field body "authUrl")) as [a | ] eqn:Hurl.
    + destruct (js_string (field body "authToken")) as [t | ] eqn:Htok;
        [discriminate | ].
      exists [ LogIdcName i; LogAuthUrl a; LogAuthUrl2 (authUrl2_of env body) ].
      split; [reflexivity | ]. repeat constructor.
    + exists [ LogIdcName i ]. split; [reflexivity | ]. repeat constructor.
  - exists []. split; [reflexivity | ]. constructor.
Qed.

Lemma handle_rejected (env : Env) (body : Body) (idc_text authUrl_text token : string) :
  strict_eq (field body "resultCode") "0000" = true ->
  js_string (field body "idc_name") = Some idc_text ->
  js_string (field body "authUrl") = Some authUrl_text ->
  js_string (field body "authToken") = Some token ->
  url_check env body = Some false ->
  handle env body =
  [ LogCallback body;
    LogApproving;
    LogIdcName idc_text;
    LogAuthUrl authUrl_text;
    LogAuthUrl2 (authUrl2_of env body);
    LogOptions (options_of env body token);
    LogUrlMismatch;
    Render 200 (mismatch_page body) ].
Proof.
  intros Hcode Hidc Hurl Htok Hcheck. unfold url_check, authUrl2_of in Hcheck.
  unfold handle, pc_return. rewrite Hcode, Hidc, Hurl, Htok, Hcheck. reflexivity.
Qed.

(** What follows the approval POST: the callback, run inside the call when
    [request] refuses the uri (an exception then reaches the outer
    [catch]), and later otherwise (an exception then ends the process). *)
Lemma handle_approving (env : Env) (body : Body) (idc_text authUrl_text token : string) :
  strict_eq (field body "resultCode") "0000" = true ->
  js_string (field body "idc_name") = Some idc_text ->
  js_string (field body "authUrl") = Some authUrl_text ->
  js_string (field body "authToken") = Some token ->
  url_check env body = Some true ->
  let callback :=
    approval_callback env body (field body "netCancelUrl") (field body "idc_name")
      (options_of env body token) (approval_answer env body) in
  handle env body =
  ([ LogCallback body;
     LogApproving;
     LogIdcName idc_text;
     LogAuthUrl authUrl_text;
     LogAuthUrl2 (authUrl2_of env body);
     LogOptions (options_of env body token);
     LogUrlMatched;
     Post Approval (authUrl2_of env body) (options_of env body token) ]
   ++ emitted callback
   ++ match returned callback, refusal env (authUrl2_of env body) with
      | Some _, _ => deferred callback
      | None, Some _ => [ LogHandlerError; Render 500 server_error_page ] ++ deferred callback
      | None, None => [ Uncaught ]
      end)%list.
Proof.
  intros Hcode Hidc Hurl Htok Hcheck callback. subst callback.
  unfold approval_answer, answer.
  unfold url_check in Hcheck. unfold authUrl2_of in *.
  unfold handle, pc_return. rewrite Hcode, Hidc, Hurl, Htok, Hcheck.
  unfold request_post, options_of.
  destruct (refusal env (getAuthUrl (getUrl env) (field body "idc_name"))) as [msg | ];
    lazy beta iota zeta
      delta [settle bind try_catch emit ret attempt defer render
             emitted deferred returned];
    match goal with
    | |- context [approval_callback env body ?a ?b ?o ?r] =>
        destruct (approval_callback env body a b o r) as [e d [[] | ]]
    end;
    rewrite ?app_nil_r, <- ?app_assoc; reflexivity.
Qed.

(** ** The callback of the approval POST *)

Lemma callback_parsed (env : Env) (body : Body) (netCancelUrl idc_name : JsVal)
    (options : ApprovalRequest.t) (statusCode : Z) (result : Json) :
  result <> JNull ->
  approval_callback env body netCancelUrl idc_name options
    (ReplyBody statusCode (Some result))
  = MkJs [ LogReply (ReplyBody statusCode (Some result));
           LogParsed result;
           Render 200 (result_page body result) ] [] (Some tt).
Proof.
  intros Hnull. unfold approval_callback.
  destruct result; try reflexivity. now elim Hnull.
Qed.

Lemma callback_thrown (env : Env) (body : Body) (netCancelUrl idc_name : JsVal)
    (options : ApprovalRequest.t) (reply : Reply) :
  reply_throws reply = true ->
  let netCancelUrl2 := getNetCancel (getUrl env) idc_name in
  let logged :=
    (reply_logs reply ++ [ LogApprovalError; LogNetCancelUrl netCancelUrl2 ])%list in
  approval_callback env body netCancelUrl idc_name options reply =
  match loose_eq (toNumber env) netCancelUrl netCancelUrl2 with
  | None => MkJs logged [] None
  | Some false =>
      MkJs (logged ++ [ Render 200 (approval_error_page body) ]) [] (Some tt)
  | Some true =>
      match refusal env netCancelUrl2 with
      | Some message =>
          MkJs (logged ++ [ Post NetCancel netCancelUrl2 options;
                            LogNetCancelResult (ReplyError message);
                            Render 200 (approval_error_page body) ]) [] (Some tt)
      | None =>
          MkJs (logged ++ [ Post NetCancel netCancelUrl2 options;
                            Render 200 (approval_error_page body) ])
               [ LogNetCancelResult (netcancel_reply env) ] (Some tt)
      end
  end.
Proof.
  intros Hthrow netCancelUrl2 logged. subst netCancelUrl2 logged.
  unfold approval_callback, request_post.
  destruct reply as [message | statusCode [result | ]];
    [ | destruct result; try discriminate Hthrow | ];
    (destruct (loose_eq _ _ _) as [[ | ] | ];
     [destruct (refusal env _) | | ]; reflexivity).
Qed.

Lemma reply_throws_false (reply : Reply) :
  reply_throws reply = false ->
  exists statusCode result, reply = ReplyBody statusCode (Some result) /\ result <> JNull.
Proof.
  destruct reply as [message | statusCode [result | ]]; try discriminate.
  destruct result; try discriminate; intros _; do 2 eexists; split;
    try reflexivity; discriminate.
Qed.

Lemma reply_logs_are_logs (reply : Reply) : Forall is_log (reply_logs reply).
Proof. destruct reply as [message | statusCode [result | ]]; repeat constructor. Qed.

(** ** What a run shows *)

(** Splits a run into the paths of the handler. *)
Ltac by_path env body :=
  unfold cancels, approves, pages;
  let Hcode := fresh "Hcode" in
  let Hprep := fresh "Hprep" in
  let Hcheck := fresh "Hcheck" in
  destruct (strict_eq (field body "resultCode") "0000") eqn:Hcode; cbn [andb];
  [ destruct (prepared body) eqn:Hprep; cbn [andb];
    [ let i := fresh "idc_text" in
      let a := fresh "authUrl_text" in
      let t := fresh "token" in
      let Hi := fresh "Hidc" in
      let Ha := fresh "Hurl" in
      let Ht := fresh "Htok" in
      destruct (prepared_inv body Hprep) as (i & a & t & Hi & Ha & Ht);
      destruct (url_check env body) as [[ | ] | ] eqn:Hcheck;
      [ rewrite (handle_approving env body i a t Hcode Hi Ha Ht Hcheck); cbv zeta
      | rewrite (handle_rejected env body i a t Hcode Hi Ha Ht Hcheck)
      | now elim (url_check_defined env body Hprep) ]
    | let logged := fresh "logged" in
      let Hrun := fresh "Hrun" in
      let Hlog := fresh "Hlog" in
      let Hn := fresh "Hnet" in
      let Hr := fresh "Hren" in
      let Hb := fresh "Hbuilt" in
      let Hc := fresh "Hcrash" in
      let Hp := fresh "Hposts" in
      destruct (handle_threw env body Hcode Hprep) as (logged & Hrun & Hlog);
      destruct (logs_are_silent logged Hlog) as (Hn & Hr & Hb & Hc & Hp);
      rewrite Hrun ]
  | rewrite (handle_declined env body Hcode) ].

(** Splits what follows the approval POST by the reply and the check of
    the cancellation URL. *)
Ltac by_reply env body :=
  let Hthrow := fresh "Hthrow" in
  let Hn := fresh "Hnet" in
  let Hr := fresh "Hren" in
  let Hb := fresh "Hbuilt" in
  let Hc := fresh "Hcrash" in
  let Hp := fresh "Hposts" in
  destruct (logs_are_silent _ (reply_logs_are_logs (approval_answer env body)))
    as (Hn & Hr & Hb & Hc & Hp);
  destruct (reply_throws (approval_answer env body)) eqn:Hthrow;
  [ rewrite (callback_thrown env body _ _ _ _ Hthrow); cbv zeta;
    unfold netcancel_check, netCancelUrl2_of;
    destruct (loose_eq (toNumber env) (field body "netCancelUrl")
                (getNetCancel (getUrl env) (field body "idc_name"))) as [[ | ] | ];
    [ destruct (refusal env (getNetCancel (getUrl env) (field body "idc_name"))) | | ]
  | let sc := fresh "statusCode" in
    let r := fresh "result" in
    let Hr := fresh "Hreply" in
    let Hn := fresh "Hnull" in
    destruct (reply_throws_false _ Hthrow) as (sc & r & Hr & Hn);
    rewrite Hr in *; rewrite (callback_parsed env body _ _ _ sc r Hn) ];
  cbn [emitted deferred returned].

Lemma approval_posts_handle (env : Env) (body : Body) :
  approval_posts (handle env body) =
  if approves env body
  then map (pair (authUrl2_of env body)) (option_list (approval_options env body))
  else [].
Proof.
  unfold approval_posts, approval_options.
  by_path env body; try reflexivity.
  - rewrite Htok. by_reply env body.
    all: rewrite ?posts_at_app, ?Hposts.
    all: try reflexivity.
    all: destruct (refusal env (authUrl2_of env body)); reflexivity.
  - rewrite !posts_at_app, Hposts. reflexivity.
Qed.

Lemma netcancel_posts_handle (env : Env) (body : Body) :
  netcancel_posts (handle env body) =
  if cancels env body
  then map (pair (netCancelUrl2_of env body)) (option_list (approval_options env body))
  else [].
Proof.
  unfold netcancel_posts, approval_options.
  by_path env body; try reflexivity.
  - rewrite Htok. by_reply env body.
    all: rewrite ?posts_at_app, ?Hposts.
    all: try reflexivity.
    all: destruct (refusal env (authUrl2_of env body)); reflexivity.
  - rewrite !posts_at_app, Hposts. reflexivity.
Qed.

Lemma network_calls_handle (env : Env) (body : Body) :
  network_calls (handle env body) =
  (map (fun options => Post Approval (authUrl2_of env body) options)
     (if approves env body then option_list (approval_options env body) else [])
   ++ map (fun options => Post NetCancel (netCancelUrl2_of env body) options)
        (if cancels env body then option_list (approval_options env body) else []))%list.
Proof.
  unfold approval_options.
  by_path env body; try reflexivity.
  - rewrite Htok. by_reply env body.
    all: rewrite ?network_calls_app, ?Hnet.
    all: try reflexivity.
    all: destruct (refusal env (authUrl2_of env body)); reflexivity.
  - rewrite !network_calls_app, Hnet. reflexivity.
Qed.

Lemma rendered_handle (env : Env) (body : Body) :
  rendered (handle env body) = pages env body.
Proof.
  by_path env body; try reflexivity.
  - by_reply env body.
    all: rewrite ?rendered_app, ?Hren.
    all: try (destruct (approval_answer env body) as [? | ? [[] | ]];
              try discriminate Hthrow; cbn;
              try reflexivity;
              destruct (refusal env (authUrl2_of env body)); reflexivity).
    destruct result; try reflexivity. now elim Hnull.
  - rewrite !rendered_app, Hren. reflexivity.
Qed.

(** A run ends on an uncaught exception exactly when the approval POST went
    out, reading its reply threw, and the comparison of the cancellation
    URL threw in turn. *)
Lemma crashed_handle (env : Env) (body : Body) :
  crashed (handle env body) =
  approves env body && reply_throws (approval_answer env body)
  && match netcancel_check env body, refusal env (authUrl2_of env body) with
     | None, None => true
     | _, _ => false
     end.
Proof.
  unfold crashed.
  by_path env body; try reflexivity.
  - by_reply env body.
    all: rewrite ?existsb_app; fold (crashed (reply_logs (approval_answer env body)));
      rewrite ?Hcrash.
    all: try reflexivity.
    all: try (destruct (refusal env (authUrl2_of env body)); reflexivity).
  - rewrite !existsb_app. fold (crashed logged). rewrite Hcrash. reflexivity.
Qed.

(** ** When the approval POST goes out *)

Lemma approves_inv (env : Env) (body : Body) :
  approves env body = true ->
  strict_eq (field body "resultCode") "0000" = true /\
  prepared body = true /\
  url_check env body = Some true.
Proof.
  unfold approves. intros H.
  apply andb_prop in H. destruct H as [H Hcheck].
  apply andb_prop in H. destruct H as [Hcode Hprep].
  repeat split; try assumption.
  destruct (url_check env body) as [[ | ] | ]; try discriminate. reflexivity.
Qed.

Lemma approves_intro (env : Env) (body : Body) :
  strict_eq (field body "resultCode") "0000" = true ->
  prepared body = true ->
  url_check env body = Some true ->
  approves env body = true.
Proof. unfold approves. now intros -> -> ->. Qed.

Lemma prepared_options (env : Env) (body : Body) :
  prepared body = true -> exists options, approval_options env body = Some options.
Proof.
  intros Hprep. destruct (prepared_inv body Hprep) as (i & a & t & _ & _ & Htok).
  unfold approval_options. rewrite Htok. eexists. reflexivity.
Qed.

(** The requests of a run. *)
Lemma posts_of_run (env : Env) (body : Body) :
  (approves env body = false /\
   approval_posts (handle env body) = [] /\
   netcancel_posts (handle env body) = []) \/
  (exists options,
     approves env body = true /\
     approval_options env body = Some options /\
     approval_posts (handle env body) = [ (authUrl2_of env body, options) ] /\
     netcancel_posts (handle env body) =
     if reply_throws (approval_answer env body)
        && match netcancel_check env body with Some true => true | _ => false end
     then [ (netCancelUrl2_of env body, options) ]
     else []).
Proof.
  rewrite approval_posts_handle, netcancel_posts_handle. unfold cancels.
  destruct (approves env body) eqn:Happ; [right | left; repeat split].
  destruct (approves_inv env body Happ) as (_ & Hprep & _).
  destruct (prepared_options env body Hprep) as (options & Hopt).
  exists options. rewrite Hopt. repeat split.
Qed.

Lemma approval_made (env : Env) (body : Body) :
  approval_posts (handle env body) <> [] -> approves env body = true.
Proof.
  destruct (posts_of_run env body) as [(_ & -> & _) | (options & Happ & _)];
    [intros H; now elim H | intros _; exact Happ].
Qed.

(** The page of an approval whose reply could be read. *)
Lemma rendered_parsed (env : Env) (body : Body) (statusCode : Z) (result : Json) :
  approves env body = true ->
  approval_answer env body = ReplyBody statusCode (Some result) ->
  result <> JNull ->
  rendered (handle env body) = [ (200, result_page body result) ] /\
  netcancel_posts (handle env body) = [].
Proof.
  intros Happ Hreply Hnull.
  destruct (approves_inv env body Happ) as (Hcode & Hprep & Hcheck).
  split.
  - rewrite rendered_handle. unfold pages. rewrite Hcode, Hprep, Hcheck, Hreply.
    destruct result; try reflexivity. now elim Hnull.
  - rewrite netcancel_posts_handle. unfold cancels. rewrite Hreply.
    destruct result; try (now elim Hnull); cbn [reply_throws];
      now rewrite andb_false_r.
Qed.

(** The page of an approval whose reply could not be read. *)
Lemma rendered_thrown (env : Env) (body : Body) :
  approves env body = true ->
  reply_throws (approval_answer env body) = true ->
  rendered (handle env body) =
  match netcancel_check env body, refusal env (authUrl2_of env body) with
  | Some _, _ => [ (200, approval_error_page body) ]
  | None, Some _ => [ (500, server_error_page) ]
  | None, None => []
  end.
Proof.
  intros Happ Hthrow.
  destruct (approves_inv env body Happ) as (Hcode & Hprep & Hcheck).
  rewrite rendered_handle. unfold pages. rewrite Hcode, Hprep, Hcheck.
  destruct (approval_answer env body) as [message | statusCode [[] | ]];
    try discriminate Hthrow; reflexivity.
Qed.

Lemma answered_is_accepted (env : Env) (body : Body) (statusCode : Z) (value : JsVal) :
  approval_answer env body = ReplyBody statusCode value ->
  refusal env (authUrl2_of env body) = None.
Proof.
  unfold approval_answer, answer.
  destruct (refusal env (authUrl2_of env body)); [discriminate | reflexivity].
Qed.

(** ** The approval call *)

(** C4 as stated fails: the callback has resultCode "0000" and its authUrl
    is the registry's URL for its data center, but its authToken is an
    object with an own property toString, as [authToken[toString]=x] of a
    form gives.  Line 87 throws while it converts the token, the outer
    catch answers with status 500, and no approval POST goes out. *)
Lemma approval_not_posted_for_unprintable_token :
  let env := sample_env (ReplyBody 200 (Some success_response)) in
  let body := callback_with unprintable (JStr fc_authUrl) (JStr fc_netCancelUrl) in
  strict_eq (field body "resultCode") "0000" = true /\
  getAuthUrl (getUrl env) (field body "idc_name") = Some fc_authUrl /\
  field body "authUrl" = Some (JStr fc_authUrl) /\
  approval_posts (handle env body) = [] /\
  rendered (handle env body) =
  [ (500,
     {| ApprovalResult.resultCode := lit "9999";
        ApprovalResult.resultMsg := lit "서버 처리 오류";
        ApprovalResult.tid := lit "N/A";
        ApprovalResult.MOID := lit "N/A";
        ApprovalResult.TotPrice := lit "N/A";
        ApprovalResult.goodName := lit "N/A";
        ApprovalResult.applDate := lit "N/A";
        ApprovalResult.applTime := lit "N/A" |}) ].
Proof.
  intros env body. repeat split; vm_compute; reflexivity.
Qed.

Lemma approval_post_destination (env : Env) (body : Body)
    (uri : option string) (request : ApprovalRequest.t) :
  In (uri, request) (approval_posts (handle env body)) ->
  uri = getAuthUrl (getUrl env) (field body "idc_name").
Proof.
  destruct (posts_of_run env body) as [(_ & -> & _) | (options & _ & _ & -> & _)].
  - intros [].
  - intros [[= <- _] | []]. reflexivity.
Qed.

(** C4, amended: for every callback with resultCode "0000" whose authUrl is
    the URL that the registry holds for its data center, and whose idc_name
    and authToken convert to strings, there is exactly one approval POST;
    it goes to the URL the registry returned (as every approval POST of
    every run does, whatever the callback claims), and its form carries the
    timestamp read while handling the callback, with
    signature = digest(authToken, timestamp) and
    verification = digest(authToken, signKey, timestamp). *)
Theorem approval_posted_to_registry_url
    (env : Env) (body : Body) (url idc_text token : string) :
  strict_eq (field body "resultCode") "0000" = true ->
  getAuthUrl (getUrl env) (field body "idc_name") = Some url ->
  field body "authUrl" = Some (JStr url) ->
  js_string (field body "idc_name") = Some idc_text ->
  js_string (field body "authToken") = Some token ->
  (exists request,
     approval_posts (handle env body)
       = [ (getAuthUrl (getUrl env) (field body "idc_name"), request) ] /\
     ApprovalRequest.authToken request = field body "authToken" /\
     ApprovalRequest.timestamp request = getTime env /\
     ApprovalRequest.signature request
       = digest [ ("authToken", token);
                  ("timestamp", number_string (getTime env)) ] /\
     ApprovalRequest.verification request
       = digest [ ("authToken", token);
                  ("signKey", env_or (SIGN_KEY env) default_sign_key);
                  ("timestamp", number_string (getTime env)) ]) /\
  (forall (claimed : Body) uri request,
     In (uri, request) (approval_posts (handle env claimed)) ->
     uri = getAuthUrl (getUrl env) (field claimed "idc_name")).
Proof.
  intros Hcode Hreg Hclaim Hidc Htok. split.
  - exists (options_of env body token).
    assert (Happ : approves env body = true).
    { apply approves_intro; [exact Hcode | | ].
      - unfold prepared. rewrite (converts_string _ _ Hidc), (converts_string _ _ Htok).
        rewrite Hclaim. reflexivity.
      - unfold url_check, authUrl2_of. rewrite Hclaim, Hreg.
        apply loose_eq_same_string. }
    rewrite approval_posts_handle, Happ. unfold approval_options. rewrite Htok.
    repeat split.
  - intros claimed uri request Hin.
    apply (approval_post_destination env claimed uri request Hin).
Qed.

Lemma approval_posted_to_registry_url_witness :
  exists request,
    approval_posts (handle (sample_env (ReplyBody 200 (Some success_response)))
                      sample_callback)
      = [ (Some fc_authUrl, request) ] /\
    ApprovalRequest.timestamp request = 1700000000000 /\
    ApprovalRequest.signature request
      = "ab7ea1108b076f477eaf255b327dd041c326d05dadc1aeca3419010ba507bf66".
Proof.
  destruct (approval_posted_to_registry_url
              (sample_env (ReplyBody 200 (Some success_response)))
              sample_callback fc_authUrl "fc" "tok")
    as [(request & Hposts & _ & Htime & Hsig & _) _];
    [reflexivity | reflexivity | reflexivity | reflexivity | reflexivity | ].
  exists request. split; [exact Hposts | ]. split; [exact Htime | ].
  rewrite Hsig. vm_compute. reflexivity.
Defined.

(** ** The reply of the approval call *)

(** C7: when the approval POST was made and its response parses as JSON
    and holds resultCode "0000" and tid "T1", the result given to the view
    carries resultCode "0000" and tid "T1", and no network cancellation is
    sent. *)
Theorem parsed_success_is_delivered
    (env : Env) (body : Body) (statusCode : Z) (result : Json) :
  approval_posts (handle env body) <> [] ->
  approval_answer env body = reply_of_response statusCode (ValidJson result) ->
  member result "resultCode" = lit "0000" ->
  member result "tid" = lit "T1" ->
  exists view,
    rendered (handle env body) = [ (200, view) ] /\
    ApprovalResult.resultCode view = lit "0000" /\
    ApprovalResult.tid view = lit "T1" /\
    netcancel_posts (handle env body) = [].
Proof.
  intros Hmade Hreply Hrc Htid.
  assert (Hnull : result <> JNull) by (intros ->; discriminate Hrc).
  destruct (rendered_parsed env body statusCode result (approval_made env body Hmade)
              Hreply Hnull) as [Hpage Hnone].
  exists (result_page body result). split; [exact Hpage | ].
  cbn [result_page ApprovalResult.resultCode ApprovalResult.tid].
  rewrite Hrc, Htid. repeat split. exact Hnone.
Qed.

Lemma parsed_success_is_delivered_witness :
  exists view,
    rendered (handle (sample_env (ReplyBody 200 (Some success_response)))
                sample_callback) = [ (200, view) ] /\
    ApprovalResult.resultCode view = lit "0000" /\
    ApprovalResult.tid view = lit "T1" /\
    netcancel_posts (handle (sample_env (ReplyBody 200 (Some success_response)))
                       sample_callback) = [].
Proof.
  apply (parsed_success_is_delivered
           (sample_env (ReplyBody 200 (Some success_response)))
           sample_callback 200 success_response);
    [vm_compute; discriminate | reflexivity | reflexivity | reflexivity].
Defined.

(** C10 as stated fails: the approval response is the valid JSON text
    null, which has no resultCode; reading [result.resultCode] throws, and
    the network cancellation is sent. *)
Lemma null_response_is_cancelled :
  let env := sample_env (reply_of_response 200 (ValidJson JNull)) in
  approval_posts (handle env sample_callback) <> [] /\
  member JNull "resultCode" = undefined /\
  exists options,
    netcancel_posts (handle env sample_callback) = [ (Some fc_netCancelUrl, options) ].
Proof.
  intros env. split; [vm_compute; discriminate | ]. split; [reflexivity | ].
  eexists. vm_compute. reflexivity.
Qed.

(** C10, amended: when the approval response parses as valid JSON other
    than null and has no resultCode, the view gets resultCode "9999"; MOID
    and TotPrice fall back to the callback's oid and price, and tid to
    "N/A"; no network cancellation is sent. *)
Theorem missing_resultCode_renders_9999
    (env : Env) (body : Body) (statusCode : Z) (result : Json) :
  approval_posts (handle env body) <> [] ->
  approval_answer env body = reply_of_response statusCode (ValidJson result) ->
  result <> JNull ->
  member result "resultCode" = undefined ->
  exists view,
    rendered (handle env body) = [ (200, view) ] /\
    ApprovalResult.resultCode view = lit "9999" /\
    ApprovalResult.MOID view = js_or (member result "MOID") (field body "oid") /\
    ApprovalResult.TotPrice view = js_or (member result "TotPrice") (field body "price") /\
    ApprovalResult.tid view = js_or (member result "tid") (lit "N/A") /\
    netcancel_posts (handle env body) = [].
Proof.
  intros Hmade Hreply Hnull Hrc.
  destruct (rendered_parsed env body statusCode result (approval_made env body Hmade)
              Hreply Hnull) as [Hpage Hnone].
  exists (result_page body result). split; [exact Hpage | ].
  cbn [result_page ApprovalResult.resultCode ApprovalResult.tid ApprovalResult.MOID
       ApprovalResult.TotPrice].
  rewrite Hrc. repeat split. exact Hnone.
Qed.

Lemma missing_resultCode_renders_9999_witness :
  exists view,
    rendered (handle (sample_env (ReplyBody 200 (Some (JObj [("status", JStr "ok")]))))
                sample_callback) = [ (200, view) ] /\
    ApprovalResult.resultCode view = lit "9999" /\
    ApprovalResult.MOID view = lit "INIpayTest_01234" /\
    ApprovalResult.TotPrice view = lit "1000" /\
    ApprovalResult.tid view = lit "N/A" /\
    netcancel_posts (handle (sample_env (ReplyBody 200 (Some (JObj [("status", JStr "ok")]))))
                       sample_callback) = [].
Proof.
  apply (missing_resultCode_renders_9999
           (sample_env (ReplyBody 200 (Some (JObj [("status", JStr "ok")]))))
           sample_callback 200 (JObj [("status", JStr "ok")]));
    [vm_compute; discriminate | reflexivity | discriminate | reflexivity].
Defined.

(** ** A checkout declined in the widget *)

(** C8: for every callback whose resultCode is not "0000" the handler
    makes no backend call and hands the callback's own resultCode,
    resultMsg, tid, MOID, TotPrice, goodName, applDate and applTime to the
    view as they came. *)
Theorem declined_passes_through (env : Env) (body : Body) :
  strict_eq (field body "resultCode") "0000" = false ->
  network_calls (handle env body) = [] /\
  rendered (handle env body) =
  [ (200,
     {| ApprovalResult.resultCode := field body "resultCode";
        ApprovalResult.resultMsg := field body "resultMsg";
        ApprovalResult.tid := field body "tid";
        ApprovalResult.MOID := field body "MOID";
        ApprovalResult.TotPrice := field body "TotPrice";
        ApprovalResult.goodName := field body "goodName";
        ApprovalResult.applDate := field body "applDate";
        ApprovalResult.applTime := field body "applTime" |}) ].
Proof.
  intros Hcode. rewrite (handle_declined env body Hcode). split; reflexivity.
Qed.

Lemma declined_passes_through_witness :
  network_calls (handle (sample_env (ReplyError "unused")) declined_callback) = [] /\
  rendered (handle (sample_env (ReplyError "unused")) declined_callback) =
  [ (200,
     {| ApprovalResult.resultCode := lit "V801";
        ApprovalResult.resultMsg := lit "cancelled by the buyer";
        ApprovalResult.tid := undefined;
        ApprovalResult.MOID := lit "INIpayTest_01234";
        ApprovalResult.TotPrice := lit "1000";
        ApprovalResult.goodName := undefined;
        ApprovalResult.applDate := undefined;
        ApprovalResult.applTime := undefined |}) ].
Proof.
  apply (declined_passes_through (sample_env (ReplyError "unused")) declined_callback).
  reflexivity.
Defined.

(** ** The URL check *)

Lemma rejected_run (env : Env) (body : Body) :
  strict_eq (field body "resultCode") "0000" = true ->
  prepared body = true ->
  url_check env body = Some false ->
  network_calls (handle env body) = [] /\
  rendered (handle env body) = [ (200, mismatch_page body) ].
Proof.
  intros Hcode Hprep Hcheck.
  destruct (prepared_inv body Hprep) as (i & a & t & Hi & Ha & Ht).
  rewrite (handle_rejected env body i a t Hcode Hi Ha Ht Hcheck).
  split; reflexivity.
Qed.

(** X10: when the callback's authUrl is a string, or is absent, and differs
    from what the properties module returned (idc_name and authToken being
    values that convert to strings), the callback is rejected: no request
    goes out and the view gets "9999" with "URL 매칭 실패". *)
Theorem string_url_mismatch_rejected (env : Env) (body : Body) :
  strict_eq (field body "resultCode") "0000" = true ->
  converts (field body "idc_name") = true ->
  converts (field body "authToken") = true ->
  (field body "authUrl" = None \/ exists s, field body "authUrl" = Some (JStr s)) ->
  field body "authUrl" <> option_map JStr (authUrl2_of env body) ->
  network_calls (handle env body) = [] /\
  exists view,
    rendered (handle env body) = [ (200, view) ] /\
    ApprovalResult.resultCode view = lit "9999" /\
    ApprovalResult.resultMsg view = lit "URL 매칭 실패".
Proof.
  intros Hcode Hidc Htok Hshape Hdiff.
  assert (Hprep : prepared body = true).
  { unfold prepared. rewrite Hidc, Htok.
    destruct Hshape as [-> | (s & ->)]; reflexivity. }
  assert (Hcheck : url_check env body = Some false).
  { unfold url_check, loose_eq. destruct (authUrl2_of env body) as [u | ];
      destruct Hshape as [Habs | (s & Hstr)];
      rewrite ?Habs, ?Hstr in *; try reflexivity.
    - f_equal. apply String.eqb_neq. intros ->. now apply Hdiff.
    - now elim Hdiff. }
  destruct (rejected_run env body Hcode Hprep Hcheck) as [Hcalls Hpage].
  split; [exact Hcalls | ].
  exists (mismatch_page body). split; [exact Hpage | ]. split; reflexivity.
Qed.

Lemma string_url_mismatch_rejected_witness :
  network_calls (handle (sample_env (ReplyError "unused"))
                   (callback_with_authUrl (JStr "https://evil.example/api/payAuth"))) = [] /\
  exists view,
    rendered (handle (sample_env (ReplyError "unused"))
                (callback_with_authUrl (JStr "https://evil.example/api/payAuth")))
      = [ (200, view) ] /\
    ApprovalResult.resultCode view = lit "9999" /\
    ApprovalResult.resultMsg view = lit "URL 매칭 실패".
Proof.
  apply (string_url_mismatch_rejected (sample_env (ReplyError "unused"))
           (callback_with_authUrl (JStr "https://evil.example/api/payAuth")));
    [reflexivity | reflexivity | reflexivity | right; eexists; reflexivity | discriminate].
Defined.

(** C3, at the input where the code leaves the claim: the callback's
    authUrl is the one-element array that holds the registry URL.  It is
    not the registry URL, yet [==] converts it to that string, the check
    passes and the approval POST goes out. *)
Theorem array_authUrl_passes_url_check :
  let env := sample_env (ReplyBody 200 (Some success_response)) in
  let body := callback_with_authUrl (JArr [JStr fc_authUrl]) in
  strict_eq (field body "resultCode") "0000" = true /\
  field body "authUrl" <> option_map JStr (authUrl2_of env body) /\
  (exists options,
     approval_options env body = Some options /\
     network_calls (handle env body) = [ Post Approval (Some fc_authUrl) options ]) /\
  exists view,
    rendered (handle env body) = [ (200, view) ] /\
    ApprovalResult.resultCode view = lit "0000".
Proof.
  intros env body. split; [reflexivity | ]. split; [discriminate | ].
  split.
  - eexists. split; [reflexivity | vm_compute; reflexivity].
  - eexists. split; [vm_compute; reflexivity | reflexivity].
Qed.

(** X11: a data center the properties module does not know is rejected
    like a URL mismatch whenever the callback carries an authUrl other
    than null (idc_name, authUrl and authToken being values that convert to
    strings). *)
Theorem unknown_idc_rejected_when_authUrl_present
    (env : Env) (body : Body) (claimed : Json) :
  strict_eq (field body "resultCode") "0000" = true ->
  prepared body = true ->
  authUrl2_of env body = None ->
  field body "authUrl" = Some claimed ->
  claimed <> JNull ->
  network_calls (handle env body) = [] /\
  exists view,
    rendered (handle env body) = [ (200, view) ] /\
    ApprovalResult.resultCode view = lit "9999" /\
    ApprovalResult.resultMsg view = lit "URL 매칭 실패".
Proof.
  intros Hcode Hprep Hreg Hclaim Hnull.
  assert (Hcheck : url_check env body = Some false).
  { unfold url_check, loose_eq. rewrite Hreg, Hclaim.
    destruct claimed; try reflexivity. now elim Hnull. }
  destruct (rejected_run env body Hcode Hprep Hcheck) as [Hcalls Hpage].
  split; [exact Hcalls | ].
  exists (mismatch_page body). split; [exact Hpage | ]. split; reflexivity.
Qed.

Lemma unknown_idc_rejected_when_authUrl_present_witness :
  network_calls (handle (sample_env (ReplyError "unused"))
                   (("authUrl", JStr fc_authUrl) :: unknown_idc_callback)) = [] /\
  exists view,
    rendered (handle (sample_env (ReplyError "unused"))
                (("authUrl", JStr fc_authUrl) :: unknown_idc_callback)) = [ (200, view) ] /\
    ApprovalResult.resultCode view = lit "9999" /\
    ApprovalResult.resultMsg view = lit "URL 매칭 실패".
Proof.
  apply (unknown_idc_rejected_when_authUrl_present (sample_env (ReplyError "unused"))
           (("authUrl", JStr fc_authUrl) :: unknown_idc_callback) (JStr fc_authUrl));
    [reflexivity | reflexivity | reflexivity | reflexivity | discriminate].
Defined.

(** C6, at the input where the code leaves the claim: the data center is
    unknown and the callback carries no authUrl.  Both sides of the check
    are [undefined], the check passes, [request.post] is called with an
    undefined uri (and once more for the cancellation, the callback having
    no netCancelUrl either), and the buyer does not get the URL-mismatch
    result. *)
Theorem unknown_idc_without_authUrl_is_approved :
  let env := sample_env (ReplyError "options.uri is a required argument") in
  let body := unknown_idc_callback in
  strict_eq (field body "resultCode") "0000" = true /\
  getAuthUrl (getUrl env) (field body "idc_name") = None /\
  (exists options,
     approval_options env body = Some options /\
     network_calls (handle env body)
       = [ Post Approval None options; Post NetCancel None options ]) /\
  exists view,
    rendered (handle env body) = [ (200, view) ] /\
    ApprovalResult.resultCode view = lit "9999" /\
    ApprovalResult.resultMsg view = lit "승인 처리 중 오류 발생".
Proof.
  intros env body. split; [reflexivity | ]. split; [reflexivity | ].
  split.
  - eexists. split; [reflexivity | vm_compute; reflexivity].
  - eexists. split; [vm_compute; reflexivity | ]. split; reflexivity.
Qed.

(** ** When the approval request is built *)

(** C5 as stated fails: a callback whose authUrl is not the registry URL is
    rejected, and the approval request, with its signature, has been built
    and logged all the same. *)
Lemma request_built_for_rejected_callback :
  let env := sample_env (ReplyError "unused") in
  let body := callback_with_authUrl (JStr "https://evil.example/api/payAuth") in
  url_check env body = Some false /\
  exists options,
    approval_options env body = Some options /\
    built_requests (handle env body) = [ options ] /\
    ApprovalRequest.signature options
      = "ab7ea1108b076f477eaf255b327dd041c326d05dadc1aeca3419010ba507bf66".
Proof.
  intros env body. split; [reflexivity | ].
  eexists. split; [reflexivity | ].
  split; vm_compute; reflexivity.
Qed.

(** C5, amended: for a callback with resultCode "0000" whose idc_name,
    authUrl and authToken convert to strings, the approval request is built
    and logged before the URL check, whatever the check will say; but it is
    sent, as the form of the approval POST or of the network cancellation,
    only when the check has passed. *)
Theorem request_sent_only_after_url_check
    (env : Env) (body : Body) (idc_text authUrl_text token : string) :
  strict_eq (field body "resultCode") "0000" = true ->
  js_string (field body "idc_name") = Some idc_text ->
  js_string (field body "authUrl") = Some authUrl_text ->
  js_string (field body "authToken") = Some token ->
  (exists options rest,
     approval_options env body = Some options /\
     handle env body =
     ([ LogCallback body;
        LogApproving;
        LogIdcName idc_text;
        LogAuthUrl authUrl_text;
        LogAuthUrl2 (authUrl2_of env body);
        LogOptions options ] ++ rest)%list) /\
  (forall site uri form,
     In (uri, form) (posts_at site (handle env body)) ->
     url_check env body = Some true /\ approval_options env body = Some form).
Proof.
  intros Hcode Hidc Hurl Htok. split.
  - exists (options_of env body token).
    assert (Hopt : approval_options env body = Some (options_of env body token))
      by (unfold approval_options; now rewrite Htok).
    assert (Hprep : prepared body = true).
    { unfold prepared.
      now rewrite (converts_string _ _ Hidc), (converts_string _ _ Hurl),
        (converts_string _ _ Htok). }
    destruct (url_check env body) as [[ | ] | ] eqn:Hcheck.
    + rewrite (handle_approving env body _ _ _ Hcode Hidc Hurl Htok Hcheck).
      eexists. split; [exact Hopt | reflexivity].
    + rewrite (handle_rejected env body _ _ _ Hcode Hidc Hurl Htok Hcheck).
      eexists. split; [exact Hopt | reflexivity].
    + now elim (url_check_defined env body Hprep).
  - intros site uri form Hin.
    destruct (posts_of_run env body)
      as [(_ & Hnone & Hnone') | (options & Happ & Hopt & Hposts & Hcancel)];
      unfold approval_posts, netcancel_posts in *.
    + destruct site; [rewrite Hnone in Hin | rewrite Hnone' in Hin]; destruct Hin.
    + destruct (approves_inv env body Happ) as (_ & _ & Hcheck).
      split; [exact Hcheck | ]. rewrite Hopt.
      destruct site.
      * rewrite Hposts in Hin. destruct Hin as [[= _ <-] | []]. reflexivity.
      * rewrite Hcancel in Hin.
        destruct (_ && _); [destruct Hin as [[= _ <-] | []]; reflexivity | destruct Hin].
Qed.

Lemma request_sent_only_after_url_check_witness :
  (exists options rest,
     approval_options (sample_env (ReplyBody 200 (Some success_response))) sample_callback
       = Some options /\
     handle (sample_env (ReplyBody 200 (Some success_response))) sample_callback =
     ([ LogCallback sample_callback;
        LogApproving;
        LogIdcName "fc";
        LogAuthUrl fc_authUrl;
        LogAuthUrl2 (Some fc_authUrl);
        LogOptions options ] ++ rest)%list) /\
  (forall site uri form,
     In (uri, form)
        (posts_at site (handle (sample_env (ReplyBody 200 (Some success_response)))
                          sample_callback)) ->
     url_check (sample_env (ReplyBody 200 (Some success_response))) sample_callback
       = Some true /\
     approval_options (sample_env (ReplyBody 200 (Some success_response))) sample_callback
       = Some form).
Proof.
  apply (request_sent_only_after_url_check
           (sample_env (ReplyBody 200 (Some success_response))) sample_callback
           "fc" fc_authUrl "tok"); reflexivity.
Defined.

(** ** The network cancellation *)

(** C1 as stated fails: the approval call was made and its reply, a JSON
    object without resultCode, is one the specification does not trust;
    no network cancellation follows. *)
Lemma no_cancellation_when_resultCode_absent :
  let env := sample_env (ReplyBody 200 (Some (JObj [("status", JStr "ok")]))) in
  strict_eq (field sample_callback "resultCode") "0000" = true /\
  approval_posts (handle env sample_callback) <> [] /\
  untrusted (approval_answer env sample_callback) = true /\
  netcancel_posts (handle env sample_callback) = [].
Proof.
  intros env. split; [reflexivity | ]. split; [ | split; reflexivity].
  vm_compute. discriminate.
Qed.

(** C1, amended: for every callback handled with resultCode "0000", a
    network cancellation is attempted if and only if an approval call was
    made, reading its reply threw (the call failed, the response was empty,
    or it was the JSON value null), and the callback's netCancelUrl equals
    the registry's URL for its data center.  There is then exactly one, and
    it goes to the registry's URL. *)
Theorem cancellation_iff_reply_threw (env : Env) (body : Body) :
  strict_eq (field body "resultCode") "0000" = true ->
  (netcancel_posts (handle env body) <> [] <->
   approval_posts (handle env body) <> [] /\
   reply_throws (approval_answer env body) = true /\
   loose_eq (toNumber env) (field body "netCancelUrl")
            (getNetCancel (getUrl env) (field body "idc_name")) = Some true) /\
  (netcancel_posts (handle env body) <> [] ->
   exists options,
     approval_options env body = Some options /\
     netcancel_posts (handle env body)
       = [ (getNetCancel (getUrl env) (field body "idc_name"), options) ]).
Proof.
  intros _.
  destruct (posts_of_run env body)
    as [(_ & -> & ->) | (options & _ & Hopt & -> & ->)].
  - split; [split | ]; intros H; try (now elim H);
      destruct H as [H _]; now elim H.
  - unfold netcancel_check, netCancelUrl2_of.
    destruct (reply_throws (approval_answer env body));
      destruct (loose_eq _ _ _) as [[ | ] | ]; cbn [andb];
      (split; [split | ]); try (intros H; now elim H);
      try (intros (_ & H1 & H2); discriminate);
      try (intros _; repeat split; discriminate);
      intros _; exists options; split; [exact Hopt | reflexivity].
Qed.

Lemma cancellation_iff_reply_threw_witness :
  exists options,
    approval_options (sample_env (ReplyError "socket hang up")) sample_callback
      = Some options /\
    netcancel_posts (handle (sample_env (ReplyError "socket hang up")) sample_callback)
      = [ (Some fc_netCancelUrl, options) ].
Proof.
  destruct (cancellation_iff_reply_threw
              (sample_env (ReplyError "socket hang up")) sample_callback)
    as [[_ Hif] Hone]; [reflexivity | ].
  apply Hone. apply Hif. split; [ | split; reflexivity].
  vm_compute. discriminate.
Defined.




(** ** The Signer *)

Lemma length_append (s1 s2 : string) :
  String.length (s1 ++ s2) = (String.length s1 + String.length s2)%nat.
Proof. induction s1 as [ | c s1 IH]; simpl; [reflexivity | now rewrite IH]. Qed.

Lemma append_inv_head (s a b : string) : s ++ a = s ++ b -> a = b.
Proof.
  induction s as [ | c s IH]; simpl; [trivial | ].
  intros [= H]. now apply IH.
Qed.

Lemma append_inv_tail (a b s : string) : a ++ s = b ++ s -> a = b.
Proof.
  revert b. induction a as [ | c a IH]; intros [ | d b] H; simpl in H.
  - reflexivity.
  - apply (f_equal String.length) in H. simpl in H. rewrite length_append in H. lia.
  - apply (f_equal String.length) in H. simpl in H. rewrite length_append in H. lia.
  - injection H as -> H. f_equal. now apply IH.
Qed.

Lemma number_string_inj (n m : Z) : number_string n = number_string m -> n = m.
Proof.
  unfold number_string. intros H.
  assert (Hnil : forall z, Z.to_int z <> Decimal.Pos Decimal.Nil /\
                           Z.to_int z <> Decimal.Neg Decimal.Nil).
  { intros [ | p | p]; simpl; split; try discriminate;
      intros [= E]; now apply (DecimalPos.Unsigned.to_uint_nonnil p). }
  apply (f_equal NilZero.int_of_string) in H.
  destruct (Hnil n) as [Hn1 Hn2]. destruct (Hnil m) as [Hm1 Hm2].
  rewrite !NilZero.isi in H by assumption.
  injection H as H. now apply DecimalZ.to_int_inj.
Qed.

(** The code's concatenations are the specification's digest over the
    fields in the order of the specification. *)
Lemma request_signature_digest (oid price : string) (timestamp : Z) :
  request_signature oid price timestamp
  = digest [ ("oid", oid); ("price", price); ("timestamp", number_string timestamp) ].
Proof.
  unfold request_signature, signature_text, digest. reflexivity.
Qed.

Lemma request_verification_digest (oid price signKey : string) (timestamp : Z) :
  request_verification oid price signKey timestamp
  = digest [ ("oid", oid); ("price", price); ("signKey", signKey);
             ("timestamp", number_string timestamp) ].
Proof.
  unfold request_verification, digest. reflexivity.
Qed.

(** The output of [digest('hex')] *)
Lemma hex_digit_lower (n : Z) : lower_hex (Sha256.hex_digit n).
Proof.
  unfold lower_hex, Sha256.hex_digit.
  destruct (nth_in_or_default (Z.to_nat n) Sha256.hex_digits "0"%char) as [H | ->].
  - exact H.
  - now left.
Qed.

Lemma hex_length (s : string) : String.length (Sha256.hex s) = 64%nat.
Proof.
  unfold Sha256.hex. generalize (Sha256.hash (Sha256.bytes_of_string s)).
  intros st. reflexivity.
Qed.

Lemma hex_lower (s : string) :
  Forall lower_hex (list_ascii_of_string (Sha256.hex s)).
Proof.
  unfold Sha256.hex. generalize (Sha256.hash (Sha256.bytes_of_string s)).
  intros st. unfold Sha256.hex_of_state, Sha256.hex32, Sha256.nibble.
  cbn [append list_ascii_of_string].
  repeat (constructor; [apply hex_digit_lower | ]). constructor.
Qed.

(** X20: the signature of the payment request is the SHA-256 digest of
    the fields oid, price, timestamp joined as name=value pairs with & in
    that order; it is a string of 64 lowercase hexadecimal digits; equal
    inputs give equal signatures; and when any one field changes, the
    signed text changes. *)
Theorem request_signature_contract (oid price : string) (timestamp : Z) :
  request_signature oid price timestamp
    = digest [ ("oid", oid); ("price", price);
               ("timestamp", number_string timestamp) ] /\
  String.length (request_signature oid price timestamp) = 64%nat /\
  Forall lower_hex (list_ascii_of_string (request_signature oid price timestamp)) /\
  (forall oid' price' timestamp',
     oid' = oid -> price' = price -> timestamp' = timestamp ->
     request_signature oid' price' timestamp'
       = request_signature oid price timestamp) /\
  (forall oid', oid' <> oid ->
     signature_text oid' price timestamp <> signature_text oid price timestamp) /\
  (forall price', price' <> price ->
     signature_text oid price' timestamp <> signature_text oid price timestamp) /\
  (forall timestamp', timestamp' <> timestamp ->
     signature_text oid price timestamp' <> signature_text oid price timestamp).
Proof.
  split; [apply request_signature_digest | ].
  split; [apply hex_length | ].
  split; [apply hex_lower | ].
  split; [intros oid' price' timestamp' -> -> ->; reflexivity | ].
  unfold signature_text. repeat split.
  - intros oid' Hneq Heq. apply Hneq.
    apply (append_inv_head "oid=") in Heq. now apply append_inv_tail in Heq.
  - intros price' Hneq Heq. apply Hneq.
    apply (append_inv_head "oid=") in Heq. apply append_inv_head in Heq.
    apply (append_inv_head "&price=") in Heq. now apply append_inv_tail in Heq.
  - intros timestamp' Hneq Heq. apply Hneq.
    apply (append_inv_head "oid=") in Heq. apply append_inv_head in Heq.
    apply (append_inv_head "&price=") in Heq. apply append_inv_head in Heq.
    apply (append_inv_head "&timestamp=") in Heq. now apply number_string_inj.
Qed.

Lemma request_signature_contract_witness :
  request_signature "INIpayTest_01234" "1000" 1700000000000
    = "e08c138777c2c267d6c2a1e48ee6f70834d61759fdfde1d26b183c6c5dfac99e" /\
  signature_text "INIpayTest_01235" "1000" 1700000000000
    <> signature_text "INIpayTest_01234" "1000" 1700000000000.
Proof.
  destruct (request_signature_contract "INIpayTest_01234" "1000" 1700000000000)
    as (Hdigest & _ & _ & _ & Hoid & _ & _).
  split.
  - rewrite Hdigest. vm_compute. reflexivity.
  - apply Hoid. discriminate.
Defined.

(** Counting strings *)
Lemma In_words (alphabet : list ascii) (s : string) (n : nat) :
  String.length s = n ->
  Forall (fun c => In c alphabet) (list_ascii_of_string s) ->
  In s (words alphabet n).
Proof.
  revert n. induction s as [ | c s IH]; intros n Hlen Hall; subst n; simpl.
  - now left.
  - inversion Hall as [ | c' l Hc Hrest]; subst.
    apply in_flat_map. exists c. split; [exact Hc | ].
    apply in_map. now apply IH.
Qed.

Lemma length_words (alphabet : list ascii) (n : nat) :
  List.length (words alphabet n) = (List.length alphabet ^ n)%nat.
Proof.
  induction n as [ | n IH]; [reflexivity | ].
  cbn [words]. rewrite Nat.pow_succ_r'.
  generalize dependent (words alphabet n). intros w Hw. rewrite <- Hw. clear Hw.
  induction alphabet as [ | c alphabet IHa]; [reflexivity | ].
  cbn [flat_map]. rewrite length_app, length_map, IHa. reflexivity.
Qed.

Lemma NoDup_words (alphabet : list ascii) (n : nat) :
  NoDup alphabet -> NoDup (words alphabet n).
Proof.
  intros Hnd. induction n as [ | n IH]; cbn [words].
  - constructor; [intros [] | constructor].
  - generalize dependent (words alphabet n). intros w Hw.
    induction Hnd as [ | c alphabet Hc Hnd IHa]; cbn [flat_map]; [constructor | ].
    apply NoDup_app.
    + apply NoDup_map_NoDup_ForallPairs; [ | exact Hw].
      intros x y _ _ [= E]. exact E.
    + exact IHa.
    + intros x Hx Hx'. apply in_map_iff in Hx. destruct Hx as (u & <- & _).
      apply in_flat_map in Hx'. destruct Hx' as (d & Hd & Hin).
      apply in_map_iff in Hin. destruct Hin as (v & [= -> _] & _). now apply Hc.
Qed.

(** No function from the strings of length [n] over [A] to those of length
    [m] over [B] is one-to-one when the former outnumber the latter. *)
Lemma no_injection (f : string -> string) (A B : list ascii) (n m : nat) :
  NoDup A ->
  (forall s, In (f s) (words B m)) ->
  (List.length B ^ m < List.length A ^ n)%nat ->
  ~ (forall a b, f a = f b -> a = b).
Proof.
  intros HA Hrange Hcount Hinj.
  assert (Hnd : NoDup (map f (words A n))).
  { apply NoDup_map_NoDup_ForallPairs; [ | now apply NoDup_words].
    intros x y _ _. apply Hinj. }
  assert (Hincl : incl (map f (words A n)) (words B m)).
  { intros y Hy. apply in_map_iff in Hy. destruct Hy as (x & <- & _). apply Hrange. }
  pose proof (NoDup_incl_length Hnd Hincl) as Hle.
  rewrite length_map, !length_words in Hle.
  exact (Nat.lt_irrefl _ (Nat.le_lt_trans _ _ _ Hle Hcount)).
Qed.

(** X22: the signature cannot tell all order ids apart.  There are more
    order ids of 257 characters over two letters than strings of 64
    hexadecimal digits, so it is not the case that two different order ids
    always have different signatures. *)
Theorem request_signature_is_not_injective :
  ~ (forall (oid oid' price : string) (timestamp : Z),
       oid <> oid' ->
       request_signature oid price timestamp <> request_signature oid' price timestamp).
Proof.
  intros Hchanges.
  apply (no_injection (fun oid => request_signature oid "1000" 0)
           ["0"; "1"]%char Sha256.hex_digits 257 64).
  - repeat constructor; simpl; intuition discriminate.
  - intros s. apply In_words; [apply hex_length | apply hex_lower].
  - change (List.length Sha256.hex_digits) with (2 ^ 4)%nat.
    change (List.length ["0"; "1"]%char) with 2%nat.
    rewrite <- Nat.pow_mul_r. apply Nat.pow_lt_mono_r; [ | apply Nat.ltb_lt; reflexivity].
    apply Nat.ltb_lt; reflexivity.
  - intros a b Heq. destruct (string_dec a b) as [ | Hneq]; [assumption | ].
    exfalso. exact (Hchanges a b "1000" 0%Z Hneq Heq).
Qed.

(** ** One answer per callback *)

Ltac one_page side :=
  left; do 2 eexists; split; [reflexivity | split; [side | reflexivity]].

(** X1: every callback is answered with at most one rendered page, with
    status 200 or 500.  None is rendered only when the process ends on an
    uncaught exception, which happens exactly when the approval POST went
    out to a uri that [request] accepted, reading its reply threw, and the
    comparison of the cancellation URL threw in turn. *)
Theorem handler_renders_at_most_once (env : Env) (body : Body) :
  ((exists status view,
      rendered (handle env body) = [ (status, view) ] /\
      (status = 200 \/ status = 500) /\
      crashed (handle env body) = false) \/
   (rendered (handle env body) = [] /\ crashed (handle env body) = true)) /\
  (crashed (handle env body) = true <->
   approval_posts (handle env body) <> [] /\
   refusal env (authUrl2_of env body) = None /\
   reply_throws (approval_reply env) = true /\
   netcancel_check env body = None).
Proof.
  split.
  - rewrite rendered_handle, crashed_handle. unfold pages, approves.
    destruct (strict_eq (field body "resultCode") "0000"); cbn [andb];
      [ | one_page ltac:(now left)].
    destruct (prepared body); cbn [andb]; [ | one_page ltac:(now right)].
    destruct (url_check env body) as [[ | ] | ]; cbn [andb];
      try (one_page ltac:(now left)).
    destruct (approval_answer env body) as [message | statusCode [[] | ]];
      cbn [reply_throws andb];
      try (one_page ltac:(now left)).
    all: destruct (netcancel_check env body); [one_page ltac:(now left) | ].
    all: destruct (refusal env (authUrl2_of env body));
        [one_page ltac:(now right) | right; split; reflexivity].
  - rewrite crashed_handle. unfold approval_answer, answer.
    destruct (posts_of_run env body)
      as [(-> & -> & _) | (options & -> & _ & -> & _)]; cbn [andb].
    + split; [discriminate | intros [H _]; now elim H].
    + destruct (refusal env (authUrl2_of env body)) as [message | ];
        cbn [reply_throws reply_at andb].
      * destruct (netcancel_check env body); split;
          try discriminate; intros (_ & H & _); discriminate.
      * destruct (reply_throws (approval_reply env));
          destruct (netcancel_check env body); cbn [andb]; split;
          try discriminate; try (intros (_ & _ & H1 & H2); discriminate).
        -- intros _. repeat split. discriminate.
        -- reflexivity.
Qed.

(** X2: a callback causes at most two requests, in this order: the approval
    POST, then one network cancellation.  Both go to the URLs that the
    properties module returned for the callback's data center, and both
    carry the same form. *)
Theorem network_calls_of_a_run (env : Env) (body : Body) :
  network_calls (handle env body) = [] \/
  exists options,
    approval_options env body = Some options /\
    let approval :=
      Post Approval (getAuthUrl (getUrl env) (field body "idc_name")) options in
    let cancellation :=
      Post NetCancel (getNetCancel (getUrl env) (field body "idc_name")) options in
    network_calls (handle env body) = [ approval ] \/
    network_calls (handle env body) = [ approval; cancellation ].
Proof.
  rewrite network_calls_handle. unfold cancels.
  destruct (approves env body) eqn:Happ; cbn [andb]; [ | now left].
  destruct (approves_inv env body Happ) as (_ & Hprep & _).
  destruct (prepared_options env body Hprep) as (options & Hopt).
  right. exists options. split; [exact Hopt | ]. rewrite Hopt. cbv zeta.
  destruct (_ && _); [right | left]; reflexivity.
Qed.

(** X3: the answer to the network cancellation changes neither the page the
    buyer gets nor the requests that are sent. *)
Theorem cancellation_outcome_is_not_shown (env : Env) (body : Body) (reply : Reply) :
  rendered (handle (with_netcancel_reply env reply) body) = rendered (handle env body) /\
  network_calls (handle (with_netcancel_reply env reply) body)
    = network_calls (handle env body).
Proof.
  rewrite !rendered_handle, !network_calls_handle. split; reflexivity.
Qed.

(** X4: whatever the error of the approval call says, the buyer gets the
    same page. *)
Theorem error_text_is_not_shown (env : Env) (body : Body) (message message' : string) :
  rendered (handle (with_approval_reply env (ReplyError message)) body)
  = rendered (handle (with_approval_reply env (ReplyError message')) body).
Proof.
  rewrite !rendered_handle. unfold pages, approval_answer, answer.
  change (url_check (with_approval_reply env (ReplyError message)) body)
    with (url_check env body).
  change (url_check (with_approval_reply env (ReplyError message')) body)
    with (url_check env body).
  change (netcancel_check (with_approval_reply env (ReplyError message)) body)
    with (netcancel_check env body).
  change (netcancel_check (with_approval_reply env (ReplyError message')) body)
    with (netcancel_check env body).
  change (authUrl2_of (with_approval_reply env (ReplyError message)) body)
    with (authUrl2_of env body).
  change (authUrl2_of (with_approval_reply env (ReplyError message')) body)
    with (authUrl2_of env body).
  change (refusal (with_approval_reply env (ReplyError message)) (authUrl2_of env body))
    with (refusal env (authUrl2_of env body)).
  change (refusal (with_approval_reply env (ReplyError message')) (authUrl2_of env body))
    with (refusal env (authUrl2_of env body)).
  destruct (strict_eq _ _); [ | reflexivity].
  destruct (prepared body); [ | reflexivity].
  destruct (url_check env body) as [[ | ] | ]; try reflexivity.
  destruct (refusal env (authUrl2_of env body)); reflexivity.
Qed.

(** X5: when the approval call is made to a uri that [request] accepts,
    nothing is rendered before its reply has come.  When a network
    cancellation is sent to a uri that [request] accepts, the page is
    rendered right after the request went out, before the cancellation's
    answer has come; when [request] refuses the cancellation's uri, its
    error is logged inside the call and the page follows. *)
Theorem page_waits_for_approval_only (env : Env) (body : Body) :
  approval_posts (handle env body) <> [] ->
  (refusal env (authUrl2_of env body) = None ->
   rendered (emitted (pc_return env body)) = []) /\
  (netcancel_posts (handle env body) <> [] ->
   exists before options,
     approval_options env body = Some options /\
     handle env body =
     (before
      ++ Post NetCancel (getNetCancel (getUrl env) (field body "idc_name")) options
      :: match refusal env (netCancelUrl2_of env body) with
         | None =>
             [ Render 200 (approval_error_page body);
               LogNetCancelResult (netcancel_reply env) ]
         | Some message =>
             [ LogNetCancelResult (ReplyError message);
               Render 200 (approval_error_page body) ]
         end)%list).
Proof.
  intros Hmade. pose proof (approval_made env body Hmade) as Happ.
  destruct (approves_inv env body Happ) as (Hcode & Hprep & Hcheck).
  destruct (prepared_inv body Hprep) as (i & a & t & Hidc & Hurl & Htok).
  split.
  - intros Hacc. unfold url_check, authUrl2_of in Hcheck, Hacc.
    unfold pc_return. rewrite Hcode, Hidc, Hurl, Htok, Hcheck.
    unfold request_post. rewrite Hacc. reflexivity.
  - intros Hsent.
    rewrite netcancel_posts_handle in Hsent. unfold cancels in Hsent.
    rewrite Happ in Hsent. cbn [andb] in Hsent.
    destruct (reply_throws (approval_answer env body)) eqn:Hthrow;
      [ | now elim Hsent].
    destruct (netcancel_check env body) as [[ | ] | ] eqn:Hnc;
      try (now elim Hsent).
    unfold netcancel_check, netCancelUrl2_of in Hnc.
    rewrite (handle_approving env body i a t Hcode Hidc Hurl Htok Hcheck). cbv zeta.
    rewrite (callback_thrown env body _ _ _ _ Hthrow). cbv zeta. rewrite Hnc.
    unfold netCancelUrl2_of, approval_options. rewrite Htok.
    exists ([ LogCallback body;
              LogApproving;
              LogIdcName i;
              LogAuthUrl a;
              LogAuthUrl2 (authUrl2_of env body);
              LogOptions (options_of env body t);
              LogUrlMatched;
              Post Approval (authUrl2_of env body) (options_of env body t) ]
            ++ reply_logs (approval_answer env body)
            ++ [ LogApprovalError;
                 LogNetCancelUrl (getNetCancel (getUrl env) (field body "idc_name")) ])%list.
    exists (options_of env body t). split; [reflexivity | ].
    destruct (refusal env (getNetCancel (getUrl env) (field body "idc_name")));
      cbn [emitted deferred returned];
      rewrite <- !app_assoc; reflexivity.
Qed.

Lemma page_waits_for_approval_only_witness :
  rendered (emitted (pc_return (sample_env (ReplyError "socket hang up")) sample_callback))
  = [].
Proof.
  destruct (page_waits_for_approval_only
              (sample_env (ReplyError "socket hang up")) sample_callback)
    as [Hwait _]; [vm_compute; discriminate | ].
  apply Hwait. reflexivity.
Defined.

(** X23: the route function itself never throws: whatever is raised while
    it runs, by a conversion, by the comparison of the URLs, or by a
    callback that [request] runs inside the call, is caught by the outer
    catch. *)
Theorem handler_never_throws (env : Env) (body : Body) :
  returned (pc_return env body) = Some tt.
Proof.
  unfold pc_return.
  destruct (strict_eq (field body "resultCode") "0000"); [ | reflexivity].
  destruct (js_string (field body "idc_name")) as [idc_text | ]; [ | reflexivity].
  destruct (js_string (field body "authUrl")) as [authUrl_text | ]; [ | reflexivity].
  destruct (js_string (field body "authToken")) as [token | ]; [ | reflexivity].
  destruct (loose_eq (toNumber env) (field body "authUrl")
              (getAuthUrl (getUrl env) (field body "idc_name"))) as [[ | ] | ];
    try reflexivity.
  unfold request_post.
  destruct (refusal env (getAuthUrl (getUrl env) (field body "idc_name")));
    [ | reflexivity].
  lazy beta iota zeta
    delta [bind try_catch emit ret attempt defer render emitted deferred returned].
  match goal with
  | |- context [approval_callback env body ?a ?b ?o ?r] =>
      destruct (approval_callback env body a b o r) as [e d [[] | ]]
  end; reflexivity.
Qed.

(** ** What the gateway answered *)

(** X6: when the approval POST was made and its response has a resultCode
    that is truthy (a success or a failure code of the gateway), the page
    shows that value as it came, and the approval POST is the only
    request. *)
Theorem gateway_result_is_shown_as_sent
    (env : Env) (body : Body) (statusCode : Z) (result : Json) :
  approval_posts (handle env body) <> [] ->
  approval_answer env body = ReplyBody statusCode (Some result) ->
  truthy (member result "resultCode") = true ->
  exists view options,
    rendered (handle env body) = [ (200, view) ] /\
    ApprovalResult.resultCode view = member result "resultCode" /\
    approval_options env body = Some options /\
    network_calls (handle env body)
      = [ Post Approval (getAuthUrl (getUrl env) (field body "idc_name")) options ].
Proof.
  intros Hmade Hreply Hrc.
  assert (Hnull : result <> JNull) by (intros ->; discriminate Hrc).
  pose proof (approval_made env body Hmade) as Happ.
  destruct (rendered_parsed env body statusCode result Happ Hreply Hnull)
    as [Hpage _].
  destruct (approves_inv env body Happ) as (_ & Hprep & _).
  destruct (prepared_options env body Hprep) as (options & Hopt).
  exists (result_page body result), options. split; [exact Hpage | ].
  split; [cbn [result_page ApprovalResult.resultCode]; unfold js_or; now rewrite Hrc | ].
  split; [exact Hopt | ].
  rewrite network_calls_handle. unfold cancels. rewrite Happ, Hopt, Hreply.
  destruct result; try reflexivity. now elim Hnull.
Qed.

Lemma gateway_result_is_shown_as_sent_witness :
  exists view,
    rendered (handle (sample_env (ReplyBody 200 (Some (JObj [("resultCode", JStr "V013");
                                                              ("resultMsg", JStr "declined")]))))
                sample_callback) = [ (200, view) ] /\
    ApprovalResult.resultCode view = lit "V013".
Proof.
  destruct (gateway_result_is_shown_as_sent
              (sample_env (ReplyBody 200 (Some (JObj [("resultCode", JStr "V013");
                                                      ("resultMsg", JStr "declined")]))))
              sample_callback 200
              (JObj [("resultCode", JStr "V013"); ("resultMsg", JStr "declined")]))
    as (view & options & Hview & Hrc & _);
    [vm_compute; discriminate | reflexivity | reflexivity | ].
  exists view. split; [exact Hview | exact Hrc].
Defined.

(** X7: when the approval POST was made and its response is JSON but
    neither an object nor null (an array, a string, a number, a boolean),
    the page shows every fallback: 9999, '응답 파싱 오류', N/A, and the
    callback's own oid and price as they are (undefined when missing); no
    cancellation is sent. *)
Theorem non_object_reply_renders_fallbacks
    (env : Env) (body : Body) (statusCode : Z) (result : Json) :
  approval_posts (handle env body) <> [] ->
  approval_answer env body = ReplyBody statusCode (Some result) ->
  result <> JNull ->
  (forall fields, result <> JObj fields) ->
  rendered (handle env body) =
  [ (200,
     {| ApprovalResult.resultCode := lit "9999";
        ApprovalResult.resultMsg := lit "응답 파싱 오류";
        ApprovalResult.tid := lit "N/A";
        ApprovalResult.MOID := field body "oid";
        ApprovalResult.TotPrice := field body "price";
        ApprovalResult.goodName := lit "N/A";
        ApprovalResult.applDate := lit "N/A";
        ApprovalResult.applTime := lit "N/A" |}) ] /\
  netcancel_posts (handle env body) = [].
Proof.
  intros Hmade Hreply Hnull Hobj.
  destruct (rendered_parsed env body statusCode result (approval_made env body Hmade)
              Hreply Hnull) as [Hpage Hnone].
  split; [ | exact Hnone]. rewrite Hpage.
  destruct result; try reflexivity. now elim (Hobj fields).
Qed.

Lemma non_object_reply_renders_fallbacks_witness :
  rendered (handle (sample_env (ReplyBody 200 (Some (JArr [])))) sample_callback) =
  [ (200,
     {| ApprovalResult.resultCode := lit "9999";
        ApprovalResult.resultMsg := lit "응답 파싱 오류";
        ApprovalResult.tid := lit "N/A";
        ApprovalResult.MOID := lit "INIpayTest_01234";
        ApprovalResult.TotPrice := lit "1000";
        ApprovalResult.goodName := lit "N/A";
        ApprovalResult.applDate := lit "N/A";
        ApprovalResult.applTime := lit "N/A" |}) ] /\
  netcancel_posts (handle (sample_env (ReplyBody 200 (Some (JArr [])))) sample_callback) = [].
Proof.
  apply (non_object_reply_renders_fallbacks
           (sample_env (ReplyBody 200 (Some (JArr [])))) sample_callback 200 (JArr []));
    [vm_compute; discriminate | reflexivity | discriminate | discriminate].
Defined.

(** X8: when the approval POST was made and its response is null, the
    handler throws while it reads resultCode.  When the comparison of the
    cancellation URL gives an answer, the page is the failure
    '승인 처리 중 오류 발생' and the network cancellation is sent exactly when
    the callback's netCancelUrl equals the registry's; when the comparison
    throws, the process ends with neither a page nor a cancellation. *)
Theorem null_reply_is_handled_as_an_exception
    (env : Env) (body : Body) (statusCode : Z) :
  approval_posts (handle env body) <> [] ->
  approval_answer env body = ReplyBody statusCode (Some JNull) ->
  match netcancel_check env body with
  | Some matched =>
      rendered (handle env body) =
      [ (200,
         {| ApprovalResult.resultCode := lit "9999";
            ApprovalResult.resultMsg := lit "승인 처리 중 오류 발생";
            ApprovalResult.tid := lit "N/A";
            ApprovalResult.MOID := js_or (field body "oid") (lit "N/A");
            ApprovalResult.TotPrice := js_or (field body "price") (lit "N/A");
            ApprovalResult.goodName := lit "N/A";
            ApprovalResult.applDate := lit "N/A";
            ApprovalResult.applTime := lit "N/A" |}) ] /\
      exists options,
        approval_options env body = Some options /\
        netcancel_posts (handle env body) =
        if matched
        then [ (getNetCancel (getUrl env) (field body "idc_name"), options) ]
        else []
  | None =>
      rendered (handle env body) = [] /\
      netcancel_posts (handle env body) = [] /\
      crashed (handle env body) = true
  end.
Proof.
  intros Hmade Hreply.
  pose proof (approval_made env body Hmade) as Happ.
  assert (Hthrow : reply_throws (approval_answer env body) = true)
    by (rewrite Hreply; reflexivity).
  pose proof (answered_is_accepted env body _ _ Hreply) as Hacc.
  rewrite (rendered_thrown env body Happ Hthrow), crashed_handle, Happ, Hthrow, Hacc.
  destruct (posts_of_run env body)
    as [(Hno & _) | (options & _ & Hopt & _ & ->)]; [congruence | ].
  rewrite Hthrow.
  destruct (netcancel_check env body) as [matched | ].
  - split; [reflexivity | ]. exists options. split; [exact Hopt | ].
    destruct matched; reflexivity.
  - repeat split.
Qed.

Lemma null_reply_is_handled_as_an_exception_witness :
  exists options,
    approval_options (sample_env (ReplyBody 200 (Some JNull))) sample_callback
      = Some options /\
    netcancel_posts (handle (sample_env (ReplyBody 200 (Some JNull))) sample_callback) =
    [ (Some fc_netCancelUrl, options) ].
Proof.
  apply (null_reply_is_handled_as_an_exception
           (sample_env (ReplyBody 200 (Some JNull))) sample_callback 200);
    [vm_compute; discriminate | reflexivity].
Defined.

(** ** The page of a rejected callback *)

Lemma truthy_false (v : JsVal) :
  truthy v = false <->
  v = undefined \/ v = Some JNull \/ v = Some (JBool false) \/ v = Some (JNum 0)
  \/ v = lit "".
Proof.
  split.
  - destruct v as [[ | [ | ] | n | s | items | fields] | ]; cbn [truthy];
      try discriminate; auto.
    + intros H. apply negb_false_iff, Z.eqb_eq in H. subst n. auto.
    + intros H. apply negb_false_iff, String.eqb_eq in H. subst s. auto 6.
  - intros [-> | [-> | [-> | [-> | ->]]]]; reflexivity.
Qed.

(** X9: on the page of a callback that failed the URL check, MOID and
    TotPrice are the callback's oid and price, and N/A when the field is
    falsy: missing, the empty string or, in a JSON callback, null, false or
    0. *)
Theorem rejected_page_shows_order_or_placeholder (env : Env) (body : Body) :
  strict_eq (field body "resultCode") "0000" = true ->
  prepared body = true ->
  url_check env body = Some false ->
  exists view,
    rendered (handle env body) = [ (200, view) ] /\
    ApprovalResult.MOID view
      = (if truthy (field body "oid") then field body "oid" else lit "N/A") /\
    ApprovalResult.TotPrice view
      = (if truthy (field body "price") then field body "price" else lit "N/A") /\
    (forall v : JsVal,
       truthy v = false <->
       v = undefined \/ v = Some JNull \/ v = Some (JBool false) \/ v = Some (JNum 0)
       \/ v = lit "").
Proof.
  intros Hcode Hprep Hcheck.
  destruct (rejected_run env body Hcode Hprep Hcheck) as [_ Hpage].
  exists (mismatch_page body). split; [exact Hpage | ].
  split; [reflexivity | ]. split; [reflexivity | ]. apply truthy_false.
Qed.

Lemma rejected_page_shows_order_or_placeholder_witness :
  exists view,
    rendered (handle (sample_env (ReplyError "unused"))
                [ ("resultCode", JStr "0000"); ("idc_name", JStr "fc");
                  ("authUrl", JStr "https://evil.example/"); ("oid", JStr "");
                  ("price", JNum 1000) ]) = [ (200, view) ] /\
    ApprovalResult.MOID view = lit "N/A" /\
    ApprovalResult.TotPrice view = Some (JNum 1000).
Proof.
  destruct (rejected_page_shows_order_or_placeholder
              (sample_env (ReplyError "unused"))
              [ ("resultCode", JStr "0000"); ("idc_name", JStr "fc");
                ("authUrl", JStr "https://evil.example/"); ("oid", JStr "");
                ("price", JNum 1000) ])
    as (view & Hview & Hoid & Hprice & _); [reflexivity | reflexivity | reflexivity | ].
  exists view. split; [exact Hview | ]. split; [exact Hoid | exact Hprice].
Defined.

(** ** A callback that cannot be printed *)

(** X21: a callback with resultCode "0000" whose idc_name, authUrl or
    authToken does not convert to a string (an object with an own toString
    property, alone or inside an array) is answered with status 500 and
    '서버 처리 오류'; no request is built, logged or sent. *)
Theorem unprintable_callback_is_a_server_error (env : Env) (body : Body) :
  strict_eq (field body "resultCode") "0000" = true ->
  prepared body = false ->
  rendered (handle env body) =
  [ (500,
     {| ApprovalResult.resultCode := lit "9999";
        ApprovalResult.resultMsg := lit "서버 처리 오류";
        ApprovalResult.tid := lit "N/A";
        ApprovalResult.MOID := lit "N/A";
        ApprovalResult.TotPrice := lit "N/A";
        ApprovalResult.goodName := lit "N/A";
        ApprovalResult.applDate := lit "N/A";
        ApprovalResult.applTime := lit "N/A" |}) ] /\
  network_calls (handle env body) = [] /\
  built_requests (handle env body) = [] /\
  crashed (handle env body) = false.
Proof.
  intros Hcode Hprep.
  destruct (handle_threw env body Hcode Hprep) as (logged & -> & Hlog).
  destruct (logs_are_silent logged Hlog) as (Hn & Hr & Hb & Hc & _).
  unfold crashed in *.
  rewrite !rendered_app, !network_calls_app, Hr, Hn.
  unfold built_requests in *. rewrite !flat_map_app, Hb, !existsb_app, Hc.
  repeat split.
Qed.

Lemma unprintable_callback_is_a_server_error_witness :
  network_calls
    (handle (sample_env (ReplyError "unused"))
       (callback_with (JStr "tok") (JArr [JStr fc_authUrl; unprintable])
          (JStr fc_netCancelUrl))) = [].
Proof.
  apply (unprintable_callback_is_a_server_error (sample_env (ReplyError "unused"))
           (callback_with (JStr "tok") (JArr [JStr fc_authUrl; unprintable])
              (JStr fc_netCancelUrl)));
    reflexivity.
Defined.

(** ** What is signed *)

Lemma append_assoc (s1 s2 s3 : string) : (s1 ++ s2) ++ s3 = s1 ++ s2 ++ s3.
Proof. induction s1 as [ | c s1 IH]; simpl; [reflexivity | now rewrite IH]. Qed.

Lemma append_longer (s t : string) : t <> "" -> s ++ t <> s.
Proof.
  intros Ht Heq. apply (f_equal String.length) in Heq.
  rewrite length_append in Heq. destruct t; [now elim Ht | simpl in Heq; lia].
Qed.

(** X12: the signed text does not separate oid from price: moving a part
    "&price=..." from the end of the order id to the front of the price
    gives a different request with the same signature and the same
    verification. *)
Theorem signature_does_not_separate_oid_from_price (a b c signKey : string) (timestamp : Z) :
  a ++ "&price=" ++ b <> a /\
  request_signature (a ++ "&price=" ++ b) c timestamp
    = request_signature a (b ++ "&price=" ++ c) timestamp /\
  request_verification (a ++ "&price=" ++ b) c signKey timestamp
    = request_verification a (b ++ "&price=" ++ c) signKey timestamp.
Proof.
  split; [apply append_longer; discriminate | ].
  unfold request_signature, request_verification, signature_text.
  split; f_equal; cbn [append]; rewrite !append_assoc; reflexivity.
Qed.

Lemma split_at_char (c : ascii) (a b x y : string) :
  has_char c a = false -> has_char c b = false ->
  a ++ String c x = b ++ String c y -> a = b /\ x = y.
Proof.
  revert b. induction a as [ | d a IH]; intros [ | e b] Ha Hb Heq; simpl in *.
  - injection Heq as Heq. now split.
  - injection Heq as Hc _. subst e. rewrite Ascii.eqb_refl in Hb. discriminate.
  - injection Heq as Hc _. subst d. rewrite Ascii.eqb_refl in Ha. discriminate.
  - injection Heq as Hd Heq. subst e.
    apply orb_false_iff in Ha. apply orb_false_iff in Hb.
    destruct (IH b (proj2 Ha) (proj2 Hb) Heq) as [-> ->]. now split.
Qed.

(** X13: for order ids and prices that hold no '&', the signed text
    determines oid, price and timestamp. *)
Theorem signature_text_determines_fields
    (oid price oid' price' : string) (timestamp timestamp' : Z) :
  has_char "&" oid = false -> has_char "&" price = false ->
  has_char "&" oid' = false -> has_char "&" price' = false ->
  signature_text oid price timestamp = signature_text oid' price' timestamp' ->
  oid = oid' /\ price = price' /\ timestamp = timestamp'.
Proof.
  intros Ho Hp Ho' Hp' Heq. unfold signature_text in Heq.
  apply (append_inv_head "oid=") in Heq. cbn [append] in Heq.
  apply (split_at_char "&" _ _ _ _ Ho Ho') in Heq. destruct Heq as [-> Heq].
  apply (append_inv_head "price=") in Heq.
  apply (split_at_char "&" _ _ _ _ Hp Hp') in Heq. destruct Heq as [-> Heq].
  apply (append_inv_head "timestamp=") in Heq.
  apply number_string_inj in Heq. now repeat split.
Qed.

Lemma signature_text_determines_fields_witness :
  "INIpayTest_01234" = "INIpayTest_01234" /\ "1000" = "1000" /\
  1700000000000 = 1700000000000.
Proof.
  apply (signature_text_determines_fields "INIpayTest_01234" "1000"
           "INIpayTest_01234" "1000" 1700000000000 1700000000000); reflexivity.
Defined.



(** ** The payment request page *)

(** X16: the payment request page carries the clock's timestamp, a signature
    over its own oid, price and timestamp, a verification over the same with
    the sign key whose digest is its mKey, and the three digests have 64
    characters. *)
Theorem request_page_is_signed_over_its_own_fields (env : Env) :
  let page := index env in
  exists signKey,
    PaymentRequest.mKey page = Sha256.hex signKey /\
    PaymentRequest.signature page
      = digest [ ("oid", PaymentRequest.oid page);
                 ("price", PaymentRequest.price page);
                 ("timestamp", number_string (PaymentRequest.timestamp page)) ] /\
    PaymentRequest.verification page
      = digest [ ("oid", PaymentRequest.oid page);
                 ("price", PaymentRequest.price page);
                 ("signKey", signKey);
                 ("timestamp", number_string (PaymentRequest.timestamp page)) ] /\
    PaymentRequest.timestamp page = getTime env /\
    String.length (PaymentRequest.mKey page) = 64%nat /\
    String.length (PaymentRequest.signature page) = 64%nat /\
    String.length (PaymentRequest.verification page) = 64%nat.
Proof.
  intros page. exists (env_or (SIGN_KEY env) default_sign_key).
  repeat split; apply hex_length.
Qed.

(** X17: an unset or empty SIGN_KEY makes both routes sign with the
    built-in test key, whatever MERCHANT_ID is; an unset or empty
    MERCHANT_ID gives the merchant INIpayTest, whatever SIGN_KEY is. *)
Theorem unset_or_empty_settings_fall_back (env : Env) :
  ((SIGN_KEY env = None \/ SIGN_KEY env = Some "") ->
   PaymentRequest.mKey (index env) = Sha256.hex default_sign_key /\
   PaymentRequest.verification (index env)
     = request_verification "INIpayTest_01234" "1000" default_sign_key (getTime env) /\
   (forall body token,
      js_string (field body "authToken") = Some token ->
      option_map ApprovalRequest.verification (approval_options env body)
        = Some (auth_verification token default_sign_key (getTime env)))) /\
  ((MERCHANT_ID env = None \/ MERCHANT_ID env = Some "") ->
   PaymentRequest.mid (index env) = "INIpayTest").
Proof.
  split.
  - intros Hkey. unfold index, approval_options, options_of.
    cbn [PaymentRequest.mKey PaymentRequest.verification].
    destruct Hkey as [-> | ->]; repeat split; intros body token ->; reflexivity.
  - intros Hmid. unfold index. cbn [PaymentRequest.mid].
    destruct Hmid as [-> | ->]; reflexivity.
Qed.

Lemma unset_or_empty_settings_fall_back_witness :
  PaymentRequest.mKey
    (index {| MERCHANT_ID := Some "merchant01"; SIGN_KEY := Some "";
              getTime := 1700000000000; getUrl := inicis_properties;
              toNumber := decimal_number; refuses := dials_http;
              approval_reply := ReplyError "unused";
              netcancel_reply := ReplyError "unused" |})
    = Sha256.hex default_sign_key /\
  PaymentRequest.mid
    (index {| MERCHANT_ID := None; SIGN_KEY := Some "key";
              getTime := 1700000000000; getUrl := inicis_properties;
              toNumber := decimal_number; refuses := dials_http;
              approval_reply := ReplyError "unused";
              netcancel_reply := ReplyError "unused" |})
    = "INIpayTest".
Proof.
  split.
  - destruct (unset_or_empty_settings_fall_back
                {| MERCHANT_ID := Some "merchant01"; SIGN_KEY := Some "";
                   getTime := 1700000000000; getUrl := inicis_properties;
                   toNumber := decimal_number; refuses := dials_http;
                   approval_reply := ReplyError "unused";
                   netcancel_reply := ReplyError "unused" |}) as [Hkey _].
    destruct Hkey as (HmKey & _); [right; reflexivity | exact HmKey].
  - destruct (unset_or_empty_settings_fall_back
                {| MERCHANT_ID := None; SIGN_KEY := Some "key";
                   getTime := 1700000000000; getUrl := inicis_properties;
                   toNumber := decimal_number; refuses := dials_http;
                   approval_reply := ReplyError "unused";
                   netcancel_reply := ReplyError "unused" |}) as [_ Hmid].
    apply Hmid. left. reflexivity.
Defined.

(** ** The crypto test of the verification script *)

(** X18: the crypto test of the verification script prints three labelled
    digests of 64 characters each and the success line, for any test data;
    its signature and verification are those of app.js when the timestamp is
    a number in decimal. *)
Theorem crypto_test_prints_three_digests (t : CryptoTest.testData) :
  exists mKey signature verification,
    CryptoTest.run t =
    [ "mKey_RESULT:" ++ mKey;
      "signature_RESULT:" ++ signature;
      "verification_RESULT:" ++ verification;
      "CRYPTO_TEST_SUCCESS" ] /\
    String.length mKey = 64%nat /\
    String.length signature = 64%nat /\
    String.length verification = 64%nat /\
    mKey = merchant_key (CryptoTest.signKey t) /\
    (forall n, CryptoTest.timestamp t = number_string n ->
       signature = request_signature (CryptoTest.oid t) (CryptoTest.price t) n /\
       verification = request_verification (CryptoTest.oid t) (CryptoTest.price t)
                        (CryptoTest.signKey t) n).
Proof.
  do 3 eexists. split; [reflexivity | ].
  repeat (split; [apply hex_length | ]). split; [reflexivity | ].
  intros n Hn. unfold request_signature, request_verification, signature_text.
  rewrite <- Hn. split; reflexivity.
Qed.

Lemma crypto_test_prints_three_digests_witness :
  nth 1 (CryptoTest.run CryptoTest.sample) ""
  = "signature_RESULT:" ++ request_signature "TEST_ORDER_001" "1000" 1638360000000.
Proof.
  destruct (crypto_test_prints_three_digests CryptoTest.sample)
    as (mKey & signature & verification & Hrun & _ & _ & _ & _ & Happ).
  destruct (Happ 1638360000000 eq_refl) as [Hsig _].
  rewrite Hrun. cbn [nth]. rewrite Hsig. reflexivity.
Defined.

(** ** The text signed for the approval request *)

Lemma has_char_append (c : ascii) (a b : string) :
  has_char c (a ++ b) = has_char c a || has_char c b.
Proof.
  induction a as [ | d a IH]; simpl; [reflexivity | ].
  rewrite IH. now rewrite orb_assoc.
Qed.

Lemma split_at_last_char (c : ascii) (a b x y : string) :
  has_char c x = false -> has_char c y = false ->
  a ++ String c x = b ++ String c y -> a = b /\ x = y.
Proof.
  intros Hx Hy. revert b. induction a as [ | d a IH]; intros [ | e b] Heq; simpl in Heq.
  - injection Heq as Heq. now split.
  - injection Heq as _ Heq. subst x.
    rewrite has_char_append in Hx. simpl in Hx.
    rewrite Ascii.eqb_refl, orb_true_r in Hx. discriminate.
  - injection Heq as _ Heq. subst y.
    rewrite has_char_append in Hy. simpl in Hy.
    rewrite Ascii.eqb_refl, orb_true_r in Hy. discriminate.
  - injection Heq as -> Heq. destruct (IH b Heq) as [-> ->]. now split.
Qed.

Lemma uint_string_has_no_amp (d : Decimal.uint) :
  has_char "&" (NilEmpty.string_of_uint d) = false.
Proof. induction d; simpl; auto. Qed.

Lemma number_string_has_no_amp (n : Z) : has_char "&" (number_string n) = false.
Proof.
  unfold number_string, NilZero.string_of_int, NilZero.string_of_uint.
  destruct (Z.to_int n) as [d | d]; destruct d; simpl;
    try reflexivity; apply uint_string_has_no_amp.
Qed.

(** X14: the text signed for the approval request determines the authToken's
    text and the timestamp, also when the token holds '&'. *)
Theorem approval_text_determines_token_and_timestamp
    (authToken authToken' : JsVal) (token token' : string) (timestamp timestamp' : Z) :
  js_string authToken = Some token ->
  js_string authToken' = Some token' ->
  "authToken=" ++ token ++ "&timestamp=" ++ number_string timestamp
  = "authToken=" ++ token' ++ "&timestamp=" ++ number_string timestamp' ->
  js_string authToken = js_string authToken' /\ timestamp = timestamp'.
Proof.
  intros Htok Htok' Heq. rewrite Htok, Htok'.
  apply (append_inv_head "authToken=") in Heq. cbn [append] in Heq.
  apply split_at_last_char in Heq.
  - destruct Heq as [-> Heq]. split; [reflexivity | ].
    apply (append_inv_head "timestamp=") in Heq. now apply number_string_inj.
  - simpl. apply number_string_has_no_amp.
  - simpl. apply number_string_has_no_amp.
Qed.

Lemma approval_text_determines_token_and_timestamp_witness :
  js_string (Some (JStr "a&timestamp=1")) = js_string (Some (JArr [JStr "a&timestamp=1"])) /\
  7 = 7.
Proof.
  apply (approval_text_determines_token_and_timestamp
           (Some (JStr "a&timestamp=1")) (Some (JArr [JStr "a&timestamp=1"]))
           "a&timestamp=1" "a&timestamp=1" 7 7); reflexivity.
Defined.

(** ** The digests of the approval request *)


